(** * Data cleaning stage of the customer-satisfaction pipeline

    A shallow embedding of [src/data_cleaning.py] (the two data strategies
    and the [DataCleaning] context) and of [steps/clean_data.py] (the
    [clean_df] step), together with the parts of pandas, NumPy and
    scikit-learn the two files call.

    Conventions.
    - A Python call that may raise is a computation in [result]; code that
      also logs or may touch NumPy's global generator runs in [M], a state
      and exception monad over the [World].
    - binary64 numbers are [spec_float] values of the Standard Library with
      precision 53 and maximal exponent 1024; NaN is [S754_nan].
    - The library functions follow pandas 1.x (an in-place [fillna] on
      [data[c]] writes through to [data], an object column that was
      filled is converted softly, and a reduction converts the entries of
      an object column with [astype("f8")]) and scikit-learn's
      [train_test_split] built on [ShuffleSplit]. *)

From Stdlib Require Import ZArith List String Bool Lia Permutation Sorted
  SpecFloat.
Import ListNotations.
Open Scope string_scope.

Set Implicit Arguments.

(* ===================================================================== *)
(** ** Python: exceptions, results, values of the interpreter            *)
(* ===================================================================== *)

Module Py.

(** The exception classes the modelled calls raise; all of them derive
    from [Exception], so every [except Exception] clause catches them. *)
Inductive exn : Type :=
| KeyError (missing : list string)
| TypeError (msg : string)
| ValueError (msg : string)
| AttributeError (obj attr : string)
| IndexError
| OverflowError.

Inductive result (A : Type) : Type :=
| Return (a : A)
| Raise (e : exn).
Arguments Return {A} a.
Arguments Raise {A} e.

Definition bind {A B} (c : result A) (k : A -> result B) : result B :=
  match c with
  | Return a => k a
  | Raise e => Raise e
  end.

(** A record of the [logging] module: [logging.error(fmt.format(e))]
    keeps the format string of the call site and the exception that
    fills its placeholder. *)
Inductive log_record : Type :=
| LogError (fmt : string) (arg : exn)
| LogInfo (msg : string).

Fixpoint mapM {A B} (f : A -> result B) (l : list A) : result (list B) :=
  match l with
  | [] => Return []
  | x :: r =>
      bind (f x) (fun y => bind (mapM f r) (fun ys => Return (y :: ys)))
  end.

End Py.
Import Py.

Declare Scope py_scope.
Delimit Scope py_scope with py.
Notation "x <- c ;; k" := (Py.bind c (fun x => k))
  (at level 61, c at next level, right associativity) : py_scope.
Open Scope py_scope.

(* ===================================================================== *)
(** ** binary64 arithmetic                                               *)
(* ===================================================================== *)

Module Float64.

Definition prec : Z := 53.
Definition emax : Z := 1024.

Definition nan : spec_float := S754_nan.
Definition isnan (x : spec_float) : bool :=
  match x with S754_nan => true | _ => false end.

(** [float(z)]: the nearest binary64, ties to even. *)
Definition of_Z (z : Z) : spec_float := binary_normalize prec emax z 0 false.

Definition mul : spec_float -> spec_float -> spec_float := SFmul prec emax.
Definition add : spec_float -> spec_float -> spec_float := SFadd prec emax.
Definition div : spec_float -> spec_float -> spec_float := SFdiv prec emax.
Definition leb : spec_float -> spec_float -> bool := SFleb.

(** [float * int]: the integer is converted first; an integer too large
    for binary64 raises. *)
Definition mul_int (x : spec_float) (n : Z) : result spec_float :=
  match of_Z n with
  | S754_infinity _ => Raise OverflowError
  | fn => Return (mul x fn)
  end.

(** [math.ceil] and [math.floor] of a float: an exact integer, or an
    error on NaN and the infinities. *)
Definition ceil (x : spec_float) : result Z :=
  match x with
  | S754_zero _ => Return 0%Z
  | S754_finite s m e =>
      let v := cond_Zopp s (Zpos m) in
      Return (if (0 <=? e)%Z then (v * 2 ^ e)%Z
              else (- ((- v) / 2 ^ (- e)))%Z)
  | S754_infinity _ => Raise OverflowError
  | S754_nan => Raise (ValueError "cannot convert float NaN to integer")
  end.

Definition floor (x : spec_float) : result Z :=
  match x with
  | S754_zero _ => Return 0%Z
  | S754_finite s m e =>
      let v := cond_Zopp s (Zpos m) in
      Return (if (0 <=? e)%Z then (v * 2 ^ e)%Z else (v / 2 ^ (- e))%Z)
  | S754_infinity _ => Raise OverflowError
  | S754_nan => Raise (ValueError "cannot convert float NaN to integer")
  end.

(** Sorting for the median: insertion sort by [<=]. The inputs hold no
    NaN, so the order is total. *)
Fixpoint insert (x : spec_float) (l : list spec_float) : list spec_float :=
  match l with
  | [] => [x]
  | y :: r => if leb x y then x :: l else y :: insert x r
  end.

Fixpoint sort (l : list spec_float) : list spec_float :=
  match l with
  | [] => []
  | x :: r => insert x (sort r)
  end.

End Float64.

(* ===================================================================== *)
(** ** NumPy: the legacy generator                                       *)
(* ===================================================================== *)

Module Numpy.

(** [numpy.random.RandomState]. The bit generator is outside the
    repository; the pipeline only relies on it through [permutation],
    which returns a shuffled [arange(n)] and advances the generator. *)
Class RandomState : Type := {
  rng : Type;
  seed : Z -> rng;
  permutation : rng -> nat -> list nat * rng;
  permutation_perm :
    forall g n, Permutation (fst (permutation g n)) (seq 0 n)
}.

(** The conversion of text to binary64 that [astype("f8")] applies to the
    text entries of an object array (Python's [float(str)]): [None] for
    text that is not a number. The grammar of the accepted text is the
    interpreter's; the pipeline only relies on the outcome. *)
Class FloatParser : Type := {
  parse_float : string -> option spec_float
}.

(** [numpy.nanmedian] of a one-dimensional float array: NaN entries are
    removed; an empty remainder gives NaN; otherwise the middle element
    of the sorted values, or the mean of the two middle ones. *)
Definition nanmedian (a : list spec_float) : spec_float :=
  let v := Float64.sort (filter (fun x => negb (Float64.isnan x)) a) in
  let sz := List.length v in
  if (sz =? 0)%nat then Float64.nan
  else if Nat.even sz
       then Float64.div
              (Float64.add (nth (sz / 2 - 1) v Float64.nan)
                           (nth (sz / 2) v Float64.nan))
              (Float64.of_Z 2)
       else nth (sz / 2) v Float64.nan.

End Numpy.

(* ===================================================================== *)
(** ** pandas: frames, series and the operations the strategies call     *)
(* ===================================================================== *)

Module Pandas.

Inductive dtype : Type := int64 | float64 | bool_ | object_.

(** [np.number] covers the integer and floating dtypes, not [bool] and
    not [object]. *)
Definition is_number (d : dtype) : bool :=
  match d with
  | int64 | float64 => true
  | bool_ | object_ => false
  end.

(** One entry of a column. A float column marks a missing entry by NaN,
    an object column by [None] (or NaN). *)
Inductive cell : Type :=
| CInt (z : Z)
| CFloat (f : spec_float)
| CBool (b : bool)
| CStr (s : string)
| CNone.

Definition isna (c : cell) : bool :=
  match c with
  | CFloat f => Float64.isnan f
  | CNone => true
  | _ => false
  end.

Record Column : Type := { col_dtype : dtype; col_values : list cell }.

(** A series keeps the row labels of the frame it was taken from. *)
Record Series : Type := {
  name : string;
  s_index : list nat;
  s_data : Column
}.

(** A frame: row labels and the named columns, in order. *)
Record DataFrame : Type := {
  index : list nat;
  columns : list (string * Column)
}.

Definition RangeIndex (n : nat) : list nat := seq 0 n.

Definition names (df : DataFrame) : list string := map fst (columns df).
Definition nrows (df : DataFrame) : nat := List.length (index df).
Definition s_len (s : Series) : nat := List.length (s_index s).

Definition mem (c : string) (l : list string) : bool :=
  existsb (String.eqb c) l.

Fixpoint lookup (c : string) (cols : list (string * Column))
  : option Column :=
  match cols with
  | [] => None
  | (c', col) :: r => if String.eqb c c' then Some col else lookup c r
  end.

(** Entries of a cell follow the column's dtype. *)
Definition cell_of_dtype (d : dtype) (c : cell) : bool :=
  match d, c with
  | int64, CInt _ => true
  | float64, CFloat _ => true
  | bool_, CBool _ => true
  | object_, _ => true
  | _, _ => false
  end.

Fixpoint nodup_names (l : list string) : bool :=
  match l with
  | [] => true
  | c :: r => negb (mem c r) && nodup_names r
  end.

(** The invariant of a frame: unique column names, every column as long
    as the index and typed by its dtype. *)
Definition wf_column (n : nat) (col : Column) : bool :=
  (List.length (col_values col) =? n)%nat
  && forallb (cell_of_dtype (col_dtype col)) (col_values col).

Definition wf_frame (df : DataFrame) : bool :=
  nodup_names (names df)
  && forallb (fun nc => wf_column (nrows df) (snd nc)) (columns df).

(** [df.drop(labels, axis=1)]: a new frame without the named columns;
    [KeyError] lists the labels that are not columns. *)
Definition drop (labels : list string) (df : DataFrame)
  : result DataFrame :=
  match filter (fun l => negb (mem l (names df))) labels with
  | [] =>
      Return {| index := index df;
                columns := filter (fun nc => negb (mem (fst nc) labels))
                                  (columns df) |}
  | missing => Raise (KeyError missing)
  end.

(** [df[c]]: the column as a series, [KeyError] when absent. *)
Definition getitem (c : string) (df : DataFrame) : result Series :=
  match lookup c (columns df) with
  | Some col => Return {| name := c; s_index := index df; s_data := col |}
  | None => Raise (KeyError [c])
  end.

(** Conversion of a column entry to binary64 ahead of a reduction
    ([values.astype("f8")]): missing entries become NaN, text is parsed
    as a number, and text that is not a number raises. *)
Definition to_float64 `{FP : Numpy.FloatParser} (c : cell)
  : result spec_float :=
  match c with
  | CInt z => Return (Float64.of_Z z)
  | CFloat f => Return f
  | CBool b => Return (Float64.of_Z (if b then 1 else 0))
  | CNone => Return Float64.nan
  | CStr s =>
      match Numpy.parse_float s with
      | Some f => Return f
      | None => Raise (TypeError "could not convert string to float")
      end
  end.

(** [s.median()], skipping missing entries. *)
Definition median `{FP : Numpy.FloatParser} (s : Series)
  : result spec_float :=
  a <- mapM to_float64 (col_values (s_data s)) ;;
  Return (Numpy.nanmedian a).

(** Whether a block of dtype [d] stores [v] without a cast. *)
Definition can_hold (d : dtype) (v : cell) : bool :=
  match d, v with
  | object_, _ => true
  | float64, (CFloat _ | CInt _) => true
  | int64, CInt _ => true
  | bool_, CBool _ => true
  | _, _ => false
  end.

Definition is_int_cell (c : cell) : bool :=
  match c with CInt _ => true | _ => false end.
Definition is_number_cell (c : cell) : bool :=
  match c with CInt _ | CFloat _ => true | _ => false end.
Definition is_bool_cell (c : cell) : bool :=
  match c with CBool _ => true | _ => false end.

(** A number as a float entry: integers are converted, floats stay. *)
Definition as_float_cell (c : cell) : cell :=
  match c with
  | CInt z => CFloat (Float64.of_Z z)
  | c => c
  end.

(** The soft conversion of the entries of an object block
    ([Block.convert], applied to an object block after a fill): integers
    only give an integer block, numbers with a float among them a float
    block with the integers converted, booleans only a boolean block;
    anything else (text, [None], a mix of booleans and numbers) stays an
    object block. *)
Definition soft_convert (v : list cell) : Column :=
  if forallb is_int_cell v
  then {| col_dtype := int64; col_values := v |}
  else if forallb is_number_cell v
  then {| col_dtype := float64; col_values := map as_float_cell v |}
  else if forallb is_bool_cell v
  then {| col_dtype := bool_; col_values := v |}
  else {| col_dtype := object_; col_values := v |}.

(** [fillna(value)] on the data of one column. Integer and boolean
    blocks hold no missing entry and are returned as they are, and so is
    a block without missing entries; otherwise the missing entries take
    [value]: a float block stays one when it can store the value and
    becomes an object block when it cannot, and an object block that
    was filled is converted softly. *)
Definition fillna (value : cell) (col : Column) : Column :=
  let filled := map (fun c => if isna c then value else c) (col_values col) in
  match col_dtype col with
  | int64 | bool_ => col
  | float64 =>
      if existsb isna (col_values col)
      then if can_hold float64 value
           then {| col_dtype := float64; col_values := filled |}
           else soft_convert filled
      else col
  | object_ =>
      if existsb isna (col_values col) then soft_convert filled else col
  end.

Fixpoint set_column (c : string) (col : Column)
  (cols : list (string * Column)) : list (string * Column) :=
  match cols with
  | [] => []
  | (c', col') :: r =>
      if String.eqb c c' then (c', col) :: r
      else (c', col') :: set_column c col r
  end.

(** [s.fillna(value, inplace=True)] for a series [s] obtained as
    [parent[c]]: the series is the parent's cached item, so the filled
    data replaces the parent's column. *)
Definition fillna_inplace (s : Series) (value : cell) (parent : DataFrame)
  : DataFrame :=
  {| index := index parent;
     columns := set_column (name s) (fillna value (s_data s))
                           (columns parent) |}.

(** [df.select_dtypes(include=np.number)]. *)
Definition select_dtypes_number (df : DataFrame) : DataFrame :=
  {| index := index df;
     columns := filter (fun nc => is_number (col_dtype (snd nc)))
                       (columns df) |}.

(** Positional selection: [a[i] for i in indices], [IndexError] out of
    range. *)
Fixpoint take {A} (a : list A) (indices : list nat) : result (list A) :=
  match indices with
  | [] => Return []
  | i :: r =>
      match nth_error a i with
      | Some x => xs <- take a r ;; Return (x :: xs)
      | None => Raise IndexError
      end
  end.

Definition take_column (indices : list nat) (col : Column)
  : result Column :=
  v <- take (col_values col) indices ;;
  Return {| col_dtype := col_dtype col; col_values := v |}.

(** [s.iloc[indices]] and [df.iloc[indices]]: the rows at the given
    positions, with their labels. *)
Definition series_iloc (s : Series) (indices : list nat) : result Series :=
  idx <- take (s_index s) indices ;;
  col <- take_column indices (s_data s) ;;
  Return {| name := name s; s_index := idx; s_data := col |}.

Definition frame_iloc (df : DataFrame) (indices : list nat)
  : result DataFrame :=
  idx <- take (index df) indices ;;
  cols <- mapM (fun nc => col <- take_column indices (snd nc) ;;
                          Return (fst nc, col))
               (columns df) ;;
  Return {| index := idx; columns := cols |}.

End Pandas.


(* ===================================================================== *)
(** ** The interpreter state: the log and NumPy's global generator       *)
(* ===================================================================== *)

Module Runtime.
Section World.
Context `{RS : Numpy.RandomState}.

Record World : Type := {
  log : list log_record;        (* records emitted so far, oldest first *)
  np_random : Numpy.rng         (* the generator behind [np.random] *)
}.

(** A statement: it runs in a world, returns or raises, and leaves a
    world. What was logged before an exception stays logged. *)
Definition M (A : Type) : Type := World -> result A * World.

Definition ret {A} (a : A) : M A := fun w => (Return a, w).
Definition raise {A} (e : exn) : M A := fun w => (Raise e, w).

Definition bindM {A B} (c : M A) (k : A -> M B) : M B :=
  fun w =>
    match c w with
    | (Return a, w') => k a w'
    | (Raise e, w') => (Raise e, w')
    end.

Definition lift {A} (c : result A) : M A := fun w => (c, w).

(** [try: body  except Exception as e: handler(e)]. *)
Definition try_except {A} (body : M A) (handler : exn -> M A) : M A :=
  fun w =>
    match body w with
    | (Return a, w') => (Return a, w')
    | (Raise e, w') => handler e w'
    end.

Definition emit (r : log_record) : M unit :=
  fun w => (Return tt, {| log := log w ++ [r]; np_random := np_random w |}).

(** [logging.error(fmt.format(e))] and [logging.info(msg)]. *)
Definition logging_error (fmt : string) (e : exn) : M unit :=
  emit (LogError fmt e).
Definition logging_info (msg : string) : M unit := emit (LogInfo msg).

(** The world after one more error record. *)
Definition logged (fmt : string) (e : exn) (w : World) : World :=
  {| log := log w ++ [LogError fmt e]; np_random := np_random w |}.

End World.
End Runtime.
Import Runtime.

Declare Scope run_scope.
Delimit Scope run_scope with run.
Notation "x <- c ;; k" := (Runtime.bindM c (fun x => k))
  (at level 61, c at next level, right associativity) : run_scope.
Notation "c ;;; k" := (Runtime.bindM c (fun _ => k))
  (at level 61, right associativity) : run_scope.

(* ===================================================================== *)
(** ** scikit-learn: [train_test_split]                                  *)
(* ===================================================================== *)

Module Sklearn.
Import Pandas.
Section Split.
Context `{RS : Numpy.RandomState}.

(** A generator as [check_random_state] hands it out: the global one of
    [np.random], or an instance of its own. *)
Inductive generator : Type :=
| GlobalState
| Instance (g : Numpy.rng).

(** [check_random_state(seed)]: [None] is the global generator, an
    integer seeds a new [RandomState]. *)
Definition check_random_state (random_state : option Z) : generator :=
  match random_state with
  | None => GlobalState
  | Some s => Instance (Numpy.seed s)
  end.

(** [rng.permutation(n)]; drawing from the global generator advances it. *)
Definition draw_permutation (rng : generator) (n : nat) : M (list nat) :=
  match rng with
  | GlobalState =>
      fun w =>
        let (p, g') := Numpy.permutation (np_random w) n in
        (Return p, {| log := log w; np_random := g' |})
  | Instance g => ret (fst (Numpy.permutation g n))
  end.

(** [RandomState(s).permutation(n)]: what a generator seeded with [s]
    draws first. *)
Definition seeded_permutation (s : Z) (n : nat) : list nat :=
  fst (Numpy.permutation (Numpy.seed s) n).

(** [ceil(test_size * n_samples)]: the number of test rows. *)
Definition ceil_share (test_size : spec_float) (n_samples : Z) : result Z :=
  x <- Float64.mul_int test_size n_samples ;;
  Float64.ceil x.

(** [_validate_shuffle_split(n_samples, test_size, None)] for a float
    [test_size]: the test share is rounded up, the rest is the train
    part, and an empty train part is refused. *)
Definition validate_shuffle_split_float (n_samples : Z)
  (test_size : spec_float) : result (Z * Z) :=
  if Float64.leb test_size (Float64.of_Z 0)
     || Float64.leb (Float64.of_Z 1) test_size
  then Raise (ValueError "test_size should be in the (0, 1) range")
  else
    n_test <- ceil_share test_size n_samples ;;
    let n_train := (n_samples - n_test)%Z in
    if (n_samples <? n_train + n_test)%Z
    then Raise (ValueError "train_size and test_size exceed n_samples")
    else if (n_train =? 0)%Z
    then Raise (ValueError "the resulting train set will be empty")
    else Return (n_train, n_test).

(** [_validate_shuffle_split(n_samples, test_size, train_size)] for the
    integer sizes [ShuffleSplit] is built with. *)
Definition validate_shuffle_split_int (n_samples test_size train_size : Z)
  : result (Z * Z) :=
  if (n_samples <=? test_size)%Z || (test_size <=? 0)%Z
  then Raise (ValueError "test_size should be in [1, n_samples)")
  else if (n_samples <=? train_size)%Z || (train_size <=? 0)%Z
  then Raise (ValueError "train_size should be in [1, n_samples)")
  else if (n_samples <? train_size + test_size)%Z
  then Raise (ValueError "train_size and test_size exceed n_samples")
  else if (train_size =? 0)%Z
  then Raise (ValueError "the resulting train set will be empty")
  else Return (train_size, test_size).

(** [next(ShuffleSplit(test_size, train_size, random_state).split(X))]:
    the first [n_test] entries of a permutation of the row positions are
    the test positions, the next [n_train] the train positions. *)
Definition ShuffleSplit_split (n_samples : nat) (test_size train_size : Z)
  (random_state : option Z) : M (list nat * list nat) :=
  (sizes <- lift (validate_shuffle_split_int (Z.of_nat n_samples)
                    test_size train_size) ;;
   let n_train := Z.to_nat (fst sizes) in
   let n_test := Z.to_nat (snd sizes) in
   let rng := check_random_state random_state in
   permutation <- draw_permutation rng n_samples ;;
   let ind_test := firstn n_test permutation in
   let ind_train := firstn n_train (skipn n_test permutation) in
   ret (ind_train, ind_test))%run.

(** [train_test_split(X, y, test_size=..., random_state=...)] for a frame
    and a series, shuffled and not stratified. *)
Definition train_test_split (X : DataFrame) (y : Series)
  (test_size : spec_float) (random_state : option Z)
  : M (DataFrame * DataFrame * Series * Series) :=
  (let n_samples := nrows X in
   if negb (s_len y =? n_samples)%nat
   then raise (ValueError "inconsistent numbers of samples")
   else
     sizes <- lift (validate_shuffle_split_float (Z.of_nat n_samples)
                      test_size) ;;
     idx <- ShuffleSplit_split n_samples (snd sizes) (fst sizes)
              random_state ;;
     let train := fst idx in
     let test := snd idx in
     X_train <- lift (frame_iloc X train) ;;
     X_test <- lift (frame_iloc X test) ;;
     y_train <- lift (series_iloc y train) ;;
     y_test <- lift (series_iloc y test) ;;
     ret (X_train, X_test, y_train, y_test))%run.

End Split.
End Sklearn.

(* ===================================================================== *)
(** ** src/data_cleaning.py                                              *)
(* ===================================================================== *)

Module DataCleaningPy.
Import Pandas.
Section Strategies.
Context `{RS : Numpy.RandomState} `{FP : Numpy.FloatParser}.

(** What a strategy receives and hands back: a frame, the four parts of
    a split, or [None]. *)
Inductive pyval : Type :=
| PNone
| PFrame (df : DataFrame)
| PSplit (X_train X_test : DataFrame) (y_train y_test : Series).

Definition type_name (v : pyval) : string :=
  match v with
  | PNone => "NoneType"
  | PFrame _ => "DataFrame"
  | PSplit _ _ _ _ => "tuple"
  end.

(** [data.drop(labels, axis=1)] on an arbitrary object. *)
Definition py_drop (data : pyval) (labels : list string)
  : result DataFrame :=
  match data with
  | PFrame df => drop labels df
  | _ => Raise (AttributeError (type_name data) "drop")
  end.

(** [data[c]] on an arbitrary object. *)
Definition py_getitem (data : pyval) (c : string) : result Series :=
  match data with
  | PFrame df => getitem c df
  | PNone => Raise (TypeError "'NoneType' object is not subscriptable")
  | PSplit _ _ _ _ =>
      Raise (TypeError "tuple indices must be integers or slices, not str")
  end.

(** The interface [DataStrategy]: one method, [handle_data]. *)
Record DataStrategy : Type := {
  strategy_handle_data : pyval -> M pyval
}.

(** [data[c].fillna(data[c].median(), inplace=True)]. *)
Definition fillna_median (c : string) (data : DataFrame)
  : result DataFrame :=
  s <- getitem c data ;;
  m <- median s ;;
  Return (fillna_inplace s (CFloat m) data).

(** [data[c].fillna(value, inplace=True)] for a constant. *)
Definition fillna_const (c : string) (value : cell) (data : DataFrame)
  : result DataFrame :=
  s <- getitem c data ;;
  Return (fillna_inplace s value data).

Definition timestamp_columns : list string :=
  [ "order_approved_at";
    "order_delivered_carrier_date";
    "order_delivered_customer_date";
    "order_estimated_delivery_date";
    "order_purchase_timestamp" ].

Definition cols_to_drop : list string :=
  [ "custopmer_zip_code_prefix"; "order_item_id" ].

(** The [try] block of [DataPreProcessStrategy.handle_data]
    (lines 29-54). *)
Definition preprocess_try (data : pyval) : result DataFrame :=
  data <- py_drop data timestamp_columns ;;
  data <- fillna_median "product_weight_g" data ;;
  data <- fillna_median "product_length_cm" data ;;
  data <- fillna_median "product_height_cm" data ;;
  data <- fillna_median "product_width_cm" data ;;
  data <- fillna_const "review_comment_message" (CStr "No Review") data ;;
  let data := select_dtypes_number data in
  data <- drop cols_to_drop data ;;
  Return data.

(** The literal [0.2]: the binary64 nearest to one fifth. *)
Definition test_size : spec_float :=
  S754_finite false 7205759403792794 (-55).

(** The [try] block of [DataDivideStrategy.handle_data] (lines 66-71). *)
Definition divide_try (data : pyval) : M pyval :=
  (X <- lift (py_drop data ["review_score"]) ;;
   y <- lift (py_getitem data "review_score") ;;
   parts <- Sklearn.train_test_split X y test_size (Some 42%Z) ;;
   let '(X_train, X_test, y_train, y_test) := parts in
   ret (PSplit X_train X_test y_train y_test))%run.

End Strategies.

Module DataPreProcessStrategy.
(** The handler logs and falls off the end of the function: the call
    returns [None]. *)
Definition handle_data `{RS : Numpy.RandomState} `{FP : Numpy.FloatParser}
  (data : pyval) : M pyval :=
  try_except
    (data <- lift (preprocess_try data) ;; ret (PFrame data))%run
    (fun e =>
       (logging_error "Error in preprocessing data: {}" e ;;; ret PNone)%run).
End DataPreProcessStrategy.

Module DataDivideStrategy.
Definition handle_data `{RS : Numpy.RandomState} (data : pyval) : M pyval :=
  try_except
    (divide_try data)
    (fun e =>
       (logging_error "Error in dividing data: {}" e ;;; raise e)%run).
End DataDivideStrategy.

Definition PreProcess `{RS : Numpy.RandomState} `{FP : Numpy.FloatParser}
  : DataStrategy :=
  {| strategy_handle_data := DataPreProcessStrategy.handle_data |}.
Definition Divide `{RS : Numpy.RandomState} : DataStrategy :=
  {| strategy_handle_data := DataDivideStrategy.handle_data |}.

Module DataCleaning.
(** The context: a table and the strategy chosen at construction. *)
Record t `{RS : Numpy.RandomState} : Type := {
  data : pyval;
  strategy : DataStrategy
}.

Definition handle_data `{RS : Numpy.RandomState} (self : t) : M pyval :=
  try_except
    (strategy_handle_data (strategy self) (data self))
    (fun e =>
       (logging_error "Error in handling data: {}" e ;;; raise e)%run).
End DataCleaning.

End DataCleaningPy.

(* ===================================================================== *)
(** ** steps/clean_data.py                                               *)
(* ===================================================================== *)

Module CleanDataPy.
Import Pandas DataCleaningPy.

(** [X_train, X_test, y_train, y_test = v]: the value must yield exactly
    four items (iterating a frame yields its column labels). The four
    names are not read afterwards. *)
Definition unpack4 (v : pyval) : result unit :=
  match v with
  | PSplit _ _ _ _ => Return tt
  | PFrame df =>
      if (List.length (columns df) =? 4)%nat then Return tt
      else Raise (ValueError "wrong number of values to unpack")
  | PNone => Raise (TypeError "cannot unpack non-iterable NoneType object")
  end.

(** The body of the step. After the [try] statement the function ends
    without a [return]. *)
Definition clean_df `{RS : Numpy.RandomState} `{FP : Numpy.FloatParser}
  (df : DataFrame) : M pyval :=
  (try_except
     (let process_strategy := PreProcess in
      let data_cleaning :=
        {| DataCleaning.data := PFrame df;
           DataCleaning.strategy := process_strategy |} in
      processed_data <- DataCleaning.handle_data data_cleaning ;;
      let divide_strategy := Divide in
      let data_cleaning :=
        {| DataCleaning.data := processed_data;
           DataCleaning.strategy := divide_strategy |} in
      parts <- DataCleaning.handle_data data_cleaning ;;
      _ <- lift (unpack4 parts) ;;
      logging_info "Data cleaning completed")
     (fun e => logging_error "Error in cleaning data: {}" e ;;; raise e) ;;;
   ret PNone)%run.

End CleanDataPy.

(* ===================================================================== *)
(** ** The quantities the specification names                            *)
(* ===================================================================== *)

Module Spec.
Import Pandas DataCleaningPy.

(** The split size in the specification's words: [floor(n * 0.2)]. *)
Definition floor_share (n : nat) : result Z :=
  x <- Float64.mul_int test_size (Z.of_nat n) ;;
  Float64.floor x.

(** Whether [ceil(0.2 * n)] is the exact [ceil(n / 5)] at [n], and at
    every integer from [z] on, [fuel] of them. *)
Definition share_is_fifth (n : Z) : bool :=
  match Sklearn.ceil_share test_size n with
  | Return t => (t =? (n + 4) / 5)%Z
  | Raise _ => false
  end.

Fixpoint all_from (f : Z -> bool) (fuel : nat) (z : Z) : bool :=
  match fuel with
  | O => true
  | S k => f z && all_from f k (z + 1)
  end.

(** Every column a [drop] call of the preprocessing names. *)
Definition dropped_columns : list string := timestamp_columns ++ cols_to_drop.

(** The output contract in the specification's words: the numeric
    columns of the input minus the explicitly dropped ones. *)
Definition numeric_minus_dropped (df : DataFrame) : list string :=
  map fst
    (filter (fun nc => is_number (col_dtype (snd nc))
                       && negb (mem (fst nc) dropped_columns))
            (columns df)).

(** A column that the text fill turns into an object column: the comment
    column when it is not one already and holds a missing entry. *)
Definition retyped_by_fill (nc : string * Column) : bool :=
  String.eqb (fst nc) "review_comment_message"
  && existsb isna (col_values (snd nc)).

Definition product_columns : list string :=
  [ "product_weight_g"; "product_length_cm";
    "product_height_cm"; "product_width_cm" ].

Definition is_object (d : dtype) : bool :=
  match d with object_ => true | _ => false end.

(** An entry that is a number or missing. *)
Definition number_or_missing (c : cell) : bool :=
  isna c || is_number_cell c.

(** A column that the median fill turns into a float column: a product
    column of object dtype that holds a missing entry and otherwise only
    numbers. *)
Definition promoted_by_fill (nc : string * Column) : bool :=
  mem (fst nc) product_columns
  && is_object (col_dtype (snd nc))
  && existsb isna (col_values (snd nc))
  && forallb number_or_missing (col_values (snd nc)).

(** The columns the preprocessing keeps: those that are numeric after
    the fills and that no [drop] names. *)
Definition kept_columns (df : DataFrame) : list string :=
  map fst
    (filter (fun nc => negb (mem (fst nc) dropped_columns)
                       && ((is_number (col_dtype (snd nc))
                            && negb (retyped_by_fill nc))
                           || promoted_by_fill nc))
            (columns df)).


(** Row [i] of a frame, column by column, and entry [i] of a series. *)
Definition frame_row (df : DataFrame) (i : nat)
  : list (string * option cell) :=
  map (fun nc => (fst nc, nth_error (col_values (snd nc)) i)) (columns df).

Definition series_at (s : Series) (i : nat) : option cell :=
  nth_error (col_values (s_data s)) i.

(** The feature entries of row [i] of the table handed to the split. *)
Definition features_row (df : DataFrame) (i : nat)
  : list (string * option cell) :=
  filter (fun p => negb (mem (fst p) ["review_score"])) (frame_row df i).

(** The row positions of the two parts for a table of [n] rows: the
    seeded permutation, cut after [ceil(0.2 * n)] entries. *)
Definition test_positions `{RS : Numpy.RandomState} (n : nat) : list nat :=
  match Sklearn.ceil_share test_size (Z.of_nat n) with
  | Return t => firstn (Z.to_nat t) (Sklearn.seeded_permutation 42 n)
  | Raise _ => []
  end.

Definition train_positions `{RS : Numpy.RandomState} (n : nat) : list nat :=
  match Sklearn.ceil_share test_size (Z.of_nat n) with
  | Return t => skipn (Z.to_nat t) (Sklearn.seeded_permutation 42 n)
  | Raise _ => []
  end.

(** The entries of a column that are not missing. *)
Definition present (v : list cell) : list cell :=
  filter (fun c => negb (isna c)) v.





(** The median [s.median()] returns for the data of a column, NaN where
    the call raises. *)
Definition column_median `{FP : Numpy.FloatParser} (col : Column)
  : spec_float :=
  match mapM to_float64 (col_values col) with
  | Return a => Numpy.nanmedian a
  | Raise _ => Float64.nan
  end.

(** What the fills of the preprocessing make of the column named [c]. *)
Definition cleaned_column `{FP : Numpy.FloatParser} (c : string)
  (col : Column) : Column :=
  if String.eqb c "review_comment_message"
  then fillna (CStr "No Review") col
  else if mem c product_columns
  then fillna (CFloat (column_median col)) col
  else col.

End Spec.

(* ===================================================================== *)
(** ** What the strategies ask of a table                                *)
(* ===================================================================== *)

Module Contract.
Import Pandas DataCleaningPy.


(** The labels among [labels] that are not columns of [df], in order:
    what a [drop] reports. *)
Definition missing (labels : list string) (df : DataFrame) : list string :=
  filter (fun l => negb (mem l (names df))) labels.




(** The columns of a frame with their dtypes, in order. *)
Definition schema (df : DataFrame) : list (string * dtype) :=
  map (fun nc => (fst nc, col_dtype (snd nc))) (columns df).

(** The columns the fills of the preprocessing write to. *)
Definition filled_columns : list string :=
  Spec.product_columns ++ ["review_comment_message"].

(** The world after several error records, oldest first. *)
Definition logged_all `{RS : Numpy.RandomState}
  (records : list (string * exn)) (w : World) : World :=
  fold_left (fun w r => logged (fst r) (snd r) w) records w.

End Contract.

(* ===================================================================== *)
(** ** A reference generator and sample tables                           *)
(* ===================================================================== *)

Module Samples.
Import Pandas DataCleaningPy.

(** A generator without state whose permutation of [arange(n)] is the
    reversed range. It stands in for the Mersenne Twister where an
    example has to run. *)
Definition ReversedRange : Numpy.RandomState :=
  {| Numpy.rng := unit;
     Numpy.seed := fun _ => tt;
     Numpy.permutation := fun _ n => (rev (seq 0 n), tt);
     Numpy.permutation_perm :=
       fun _ n => Permutation_sym (Permutation_rev (seq 0 n)) |}.

Definition w0 : @World ReversedRange := @Build_World ReversedRange [] tt.

(** A parser for the examples: text made of decimal digits is the
    number it writes, everything else is not a number. *)
Fixpoint digits_value (s : string) (acc : Z) : option Z :=
  match s with
  | EmptyString => Some acc
  | String c r =>
      let n := Z.of_nat (Ascii.nat_of_ascii c) in
      if (48 <=? n)%Z && (n <=? 57)%Z
      then digits_value r (10 * acc + (n - 48))%Z
      else None
  end.

Definition DecimalText : Numpy.FloatParser :=
  {| Numpy.parse_float :=
       fun s =>
         match s with
         | EmptyString => None
         | _ => option_map Float64.of_Z (digits_value s 0)
         end |}.
#[global] Existing Instance DecimalText.

Definition F (z : Z) : cell := CFloat (Float64.of_Z z).
Arguments F z%_Z.
Definition NaN : cell := CFloat Float64.nan.

Definition floats (v : list cell) : Column :=
  {| col_dtype := float64; col_values := v |}.
Definition ints (v : list Z) : Column :=
  {| col_dtype := int64; col_values := map CInt v |}.
Definition texts (v : list cell) : Column :=
  {| col_dtype := object_; col_values := v |}.

(** Four orders with every column the two strategies name. *)
Definition orders : DataFrame :=
  {| index := RangeIndex 4;
     columns :=
       [ ("order_approved_at",
           texts [CStr "d1"; CStr "d2"; CNone; CStr "d4"]);
         ("order_delivered_carrier_date",
           texts [CStr "d1"; CNone; CNone; CStr "d4"]);
         ("order_delivered_customer_date",
           texts [CStr "d1"; CNone; CNone; CNone]);
         ("order_estimated_delivery_date",
           texts [CStr "d1"; CStr "d2"; CStr "d3"; CStr "d4"]);
         ("order_purchase_timestamp",
           texts [CStr "d1"; CStr "d2"; CStr "d3"; CStr "d4"]);
         ("price", floats [F 10; F 20; F 30; F 40]);
         ("product_weight_g", floats [F 1; F 2; NaN; F 4]);
         ("product_length_cm", floats [NaN; NaN; NaN; NaN]);
         ("product_height_cm", floats [F 7; F 3; NaN; NaN]);
         ("product_width_cm", ints [5; 6; 7; 8]%Z);
         ("review_comment_message",
           texts [CStr "good"; CNone; CNone; CStr "late"]);
         ("custopmer_zip_code_prefix", ints [100; 200; 300; 400]%Z);
         ("order_item_id", ints [1; 1; 2; 1]%Z);
         ("review_score", ints [5; 3; 4; 1]%Z) ] |}.

(** The same orders when no review carries a comment: a reader of the
    file types such a column as float64, all NaN. *)
Definition orders_no_comment : DataFrame :=
  {| index := index orders;
     columns :=
       set_column "review_comment_message" (floats [NaN; NaN; NaN; NaN])
                  (columns orders) |}.

(** The same orders with the zip code column under its correct name,
    [customer_zip_code_prefix]. *)
Definition orders_zip_spelled : DataFrame :=
  {| index := index orders;
     columns :=
       map (fun nc => if String.eqb (fst nc) "custopmer_zip_code_prefix"
                      then ("customer_zip_code_prefix", snd nc) else nc)
           (columns orders) |}.

(** The orders without the approval and the purchase timestamps. *)
Definition orders_short_of_two : DataFrame :=
  {| index := index orders;
     columns :=
       filter (fun nc =>
                 negb (mem (fst nc)
                         ["order_approved_at"; "order_purchase_timestamp"]))
              (columns orders) |}.


(** The orders with the weights written as numbers in text. *)
Definition orders_digits_weight : DataFrame :=
  {| index := index orders;
     columns :=
       set_column "product_weight_g"
         (texts [CStr "1"; CStr "2"; CNone; CStr "4"])
         (columns orders) |}.

(** The orders with the weights as integers in an object column: what a
    table built from the values [1, 2, None, 4] under the object dtype
    holds. *)
Definition orders_object_weight : DataFrame :=
  {| index := index orders;
     columns :=
       set_column "product_weight_g"
         (texts [CInt 1; CInt 2; CNone; CInt 4])
         (columns orders) |}.



(** [n] rows of a score and one feature. *)
Definition scored (n : nat) : DataFrame :=
  {| index := RangeIndex n;
     columns :=
       [ ("price", ints (map Z.of_nat (seq 10 n)));
         ("review_score", ints (map Z.of_nat (seq 1 n))) ] |}.

(** A table without the score column. *)
Definition unscored : DataFrame :=
  {| index := RangeIndex 3;
     columns := [ ("price", floats [F 10; F 20; F 30]) ] |}.

(** A generator with a counter as state: every draw rotates the range
    by the counter and increments it. *)
Definition rotate (k n : nat) : list nat :=
  skipn (k mod (S n)) (seq 0 n) ++ firstn (k mod (S n)) (seq 0 n).

Definition rotate_perm k n : Permutation (rotate k n) (seq 0 n).
Proof.
  unfold rotate. rewrite Permutation_app_comm, firstn_skipn. reflexivity.
Defined.

Definition Rotating : Numpy.RandomState :=
  {| Numpy.rng := nat;
     Numpy.seed := fun s => Z.to_nat s;
     Numpy.permutation := fun g n => (rotate g n, S g);
     Numpy.permutation_perm := fun g n => rotate_perm g n |}.

Definition world_at (g : nat) : @World Rotating := @Build_World Rotating [] g.

(** The value a run returns, [None] when it raises. *)
Definition returned `{RS : Numpy.RandomState} (r : result pyval * World)
  : pyval :=
  match fst r with
  | Return v => v
  | Raise _ => PNone
  end.

Definition split_of_scored_11 : pyval :=
  Eval vm_compute in
    returned (DataDivideStrategy.handle_data (PFrame (scored 11)) w0).

Definition split_of_scored_100 : pyval :=
  Eval vm_compute in
    returned (DataDivideStrategy.handle_data (PFrame (scored 100)) w0).

Definition cleaned_orders : pyval :=
  Eval vm_compute in
    returned (DataPreProcessStrategy.handle_data (PFrame orders) w0).

Definition cleaned_orders_no_comment : pyval :=
  Eval vm_compute in
    returned (DataPreProcessStrategy.handle_data
                (PFrame orders_no_comment) w0).


Definition cleaned_orders_object_weight : pyval :=
  Eval vm_compute in
    returned (DataPreProcessStrategy.handle_data
                (PFrame orders_object_weight) w0).

Definition cleaned_orders_digits_weight : pyval :=
  Eval vm_compute in
    returned (DataPreProcessStrategy.handle_data
                (PFrame orders_digits_weight) w0).

End Samples.

(* ===================================================================== *)
(** ** Positional selection                                              *)
(* ===================================================================== *)

Import Pandas DataCleaningPy CleanDataPy.

Section TakeFacts.
Context {A B : Type}.

Lemma bind_Return (c : result A) (k : A -> result B) (b : B) :
  Py.bind c k = Return b -> exists a, c = Return a /\ k a = Return b.
Proof.
  destruct c as [a|e]; simpl; intros H; [eauto | discriminate].
Qed.

Lemma take_length (a : list A) (indices : list nat) (xs : list A) :
  take a indices = Return xs -> List.length xs = List.length indices.
Proof.
  revert xs; induction indices as [|i r IH]; simpl; intros xs H.
  - injection H as <-; reflexivity.
  - destruct (nth_error a i) as [x|]; [|discriminate].
    destruct (take a r) as [xs'|]; simpl in H; [|discriminate].
    injection H as <-; simpl; f_equal; apply IH; reflexivity.
Qed.

Lemma take_nth_error (a : list A) (indices : list nat) (xs : list A) :
  take a indices = Return xs ->
  forall j i, nth_error indices j = Some i ->
              nth_error xs j = nth_error a i /\ (i < List.length a)%nat.
Proof.
  revert xs; induction indices as [|i0 r IH]; simpl; intros xs H j i Hj.
  - destruct j; discriminate.
  - destruct (nth_error a i0) as [x|] eqn:Hx; [|discriminate].
    destruct (take a r) as [xs'|]; simpl in H; [|discriminate].
    injection H as <-. destruct j as [|j]; simpl in *.
    + injection Hj as <-. split; [now rewrite Hx|].
      apply nth_error_Some; congruence.
    + apply IH; [reflexivity | assumption].
Qed.

Lemma mapM_Forall2 (f : A -> result B) (l : list A) (ys : list B) :
  mapM f l = Return ys -> Forall2 (fun x y => f x = Return y) l ys.
Proof.
  revert ys; induction l as [|x r IH]; simpl; intros ys H.
  - injection H as <-; constructor.
  - destruct (f x) as [y|] eqn:Hy; simpl in H; [|discriminate].
    destruct (mapM f r) as [ys'|]; simpl in H; [|discriminate].
    injection H as <-. constructor; [assumption | apply IH; reflexivity].
Qed.

End TakeFacts.

(* ===================================================================== *)
(** ** The split                                                         *)
(* ===================================================================== *)

Section SplitFacts.
Context `{RS : Numpy.RandomState} `{FP : Numpy.FloatParser}.

Lemma seeded_permutation_length s n :
  List.length (Sklearn.seeded_permutation s n) = n.
Proof.
  unfold Sklearn.seeded_permutation.
  rewrite (Permutation_length (Numpy.permutation_perm (Numpy.seed s) n)).
  apply length_seq.
Qed.

Lemma validate_float_Return n ts sizes :
  Sklearn.validate_shuffle_split_float n ts = Return sizes ->
  exists n_test,
    Sklearn.ceil_share ts n = Return n_test /\
    sizes = ((n - n_test)%Z, n_test) /\ (n - n_test <> 0)%Z.
Proof.
  unfold Sklearn.validate_shuffle_split_float.
  destruct (_ || _); [discriminate|].
  destruct (Sklearn.ceil_share ts n) as [n_test|]; simpl; [|discriminate].
  destruct (_ <? _)%Z; [discriminate|].
  destruct (n - n_test =? 0)%Z eqn:E; [discriminate|].
  intros H; injection H as <-. exists n_test.
  apply Z.eqb_neq in E. auto.
Qed.

Lemma validate_int_Return n t tr sizes :
  Sklearn.validate_shuffle_split_int n t tr = Return sizes ->
  sizes = (tr, t) /\ (0 < t < n)%Z /\ (0 < tr < n)%Z /\ (tr + t <= n)%Z.
Proof.
  unfold Sklearn.validate_shuffle_split_int.
  destruct (_ || _) eqn:E1; [discriminate|].
  destruct ((n <=? tr)%Z || _) eqn:E2; [discriminate|].
  destruct (n <? tr + t)%Z eqn:E3; [discriminate|].
  destruct (tr =? 0)%Z; [discriminate|].
  intros H; injection H as <-.
  apply orb_false_iff in E1 as [A1 A2], E2 as [B1 B2].
  apply Z.leb_gt in A1, A2, B1, B2. apply Z.ltb_ge in E3.
  repeat split; lia.
Qed.

Lemma ShuffleSplit_split_Return n t tr s w idx w' :
  Sklearn.ShuffleSplit_split n t tr (Some s) w = (Return idx, w') ->
  w' = w /\ (0 < t < Z.of_nat n)%Z /\ (0 < tr < Z.of_nat n)%Z /\
  (tr + t <= Z.of_nat n)%Z /\
  idx = (firstn (Z.to_nat tr) (skipn (Z.to_nat t) (Sklearn.seeded_permutation s n)),
         firstn (Z.to_nat t) (Sklearn.seeded_permutation s n)).
Proof.
  unfold Sklearn.ShuffleSplit_split, bindM, lift.
  destruct (Sklearn.validate_shuffle_split_int _ _ _) as [sizes|] eqn:V;
    [|discriminate].
  apply validate_int_Return in V as (-> & Ht & Htr & Hs).
  simpl. unfold ret. intros H; injection H as <- <-.
  repeat split; try lia.
Qed.

(** What a successful [train_test_split] with a seed returns. *)
Lemma train_test_split_Return X y ts s w parts w' :
  Sklearn.train_test_split X y ts (Some s) w = (Return parts, w') ->
  exists n_test : nat,
    w' = w /\ s_len y = nrows X /\
    Sklearn.ceil_share ts (Z.of_nat (nrows X)) = Return (Z.of_nat n_test) /\
    (0 < n_test < nrows X)%nat /\
    let p := Sklearn.seeded_permutation s (nrows X) in
    exists X_train X_test y_train y_test,
      parts = (X_train, X_test, y_train, y_test) /\
      frame_iloc X (skipn n_test p) = Return X_train /\
      frame_iloc X (firstn n_test p) = Return X_test /\
      series_iloc y (skipn n_test p) = Return y_train /\
      series_iloc y (firstn n_test p) = Return y_test.
Proof.
  unfold Sklearn.train_test_split.
  destruct (s_len y =? nrows X)%nat eqn:L; simpl; [|discriminate].
  apply Nat.eqb_eq in L.
  unfold bindM at 1, lift at 1.
  destruct (Sklearn.validate_shuffle_split_float _ _) as [sizes|] eqn:V;
    [|discriminate].
  apply validate_float_Return in V as (n_test & C & -> & Hne).
  unfold bindM at 1. simpl fst; simpl snd.
  destruct (Sklearn.ShuffleSplit_split _ _ _ _ w) as [[idx|] w1] eqn:S;
    [|discriminate].
  apply ShuffleSplit_split_Return in S as (-> & Ht & Htr & Hs & ->).
  simpl fst; simpl snd.
  assert (Hsk : firstn (Z.to_nat (Z.of_nat (nrows X) - n_test))
                  (skipn (Z.to_nat n_test)
                     (Sklearn.seeded_permutation s (nrows X)))
                = skipn (Z.to_nat n_test) (Sklearn.seeded_permutation s (nrows X))).
  { apply firstn_all2. rewrite length_skipn, seeded_permutation_length. lia. }
  rewrite Hsk. clear Hsk.
  unfold bindM, lift, ret.
  destruct (frame_iloc X (skipn _ _)) as [X_train|] eqn:E1; [|discriminate].
  destruct (frame_iloc X (firstn _ _)) as [X_test|] eqn:E2; [|discriminate].
  destruct (series_iloc y (skipn _ _)) as [y_train|] eqn:E3; [|discriminate].
  destruct (series_iloc y (firstn _ _)) as [y_test|] eqn:E4; [|discriminate].
  intros H; injection H as <- <-.
  exists (Z.to_nat n_test). rewrite Z2Nat.id by lia.
  repeat split; try assumption; try lia.
  simpl. exists X_train, X_test, y_train, y_test. auto.
Qed.

End SplitFacts.

Section IlocFacts.
Context `{FP : Numpy.FloatParser}.

Lemma take_column_Return indices col col' :
  take_column indices col = Return col' ->
  col_dtype col' = col_dtype col /\
  take (col_values col) indices = Return (col_values col').
Proof.
  unfold take_column. intros H.
  apply bind_Return in H as (v & Hv & H). injection H as <-. auto.
Qed.

Lemma frame_iloc_Return df indices df' :
  frame_iloc df indices = Return df' ->
  take (index df) indices = Return (index df') /\
  nrows df' = List.length indices /\
  forall j i, nth_error indices j = Some i ->
    nth_error (index df') j = nth_error (index df) i /\
    Spec.frame_row df' j = Spec.frame_row df i.
Proof.
  unfold frame_iloc. intros H.
  apply bind_Return in H as (idx & Hidx & H).
  apply bind_Return in H as (cols & Hcols & H). injection H as <-.
  simpl. split; [assumption|]. split.
  { unfold nrows; simpl. eapply take_length; eassumption. }
  intros j i Hj. split.
  { eapply take_nth_error; eassumption. }
  unfold Spec.frame_row; simpl.
  apply mapM_Forall2 in Hcols.
  induction Hcols as [|nc nc' l l' Hnc _ IH]; simpl; [reflexivity|].
  f_equal; [|exact IH].
  apply bind_Return in Hnc as (col & Hcol & Hnc). injection Hnc as <-.
  apply take_column_Return in Hcol as (_ & Hcol). simpl.
  f_equal. eapply take_nth_error; eassumption.
Qed.

Lemma series_iloc_Return s indices s' :
  series_iloc s indices = Return s' ->
  name s' = name s /\
  s_len s' = List.length indices /\
  forall j i, nth_error indices j = Some i ->
    nth_error (s_index s') j = nth_error (s_index s) i /\
    Spec.series_at s' j = Spec.series_at s i.
Proof.
  unfold series_iloc. intros H.
  apply bind_Return in H as (idx & Hidx & H).
  apply bind_Return in H as (col & Hcol & H). injection H as <-.
  apply take_column_Return in Hcol as (_ & Hcol).
  simpl. split; [reflexivity|]. split.
  { unfold s_len; simpl. eapply take_length; eassumption. }
  intros j i Hj. split.
  { eapply take_nth_error; eassumption. }
  unfold Spec.series_at; simpl. eapply take_nth_error; eassumption.
Qed.

(** Selecting positions from a range index returns the positions. *)
Lemma take_seq n indices xs :
  take (seq 0 n) indices = Return xs -> xs = indices.
Proof.
  revert xs; induction indices as [|i r IH]; simpl; intros xs H.
  - injection H as <-; reflexivity.
  - destruct (nth_error (seq 0 n) i) as [x|] eqn:Hx; [|discriminate].
    destruct (take (seq 0 n) r) as [xs'|]; simpl in H; [|discriminate].
    injection H as <-.
    assert (i < n)%nat.
    { rewrite <- (length_seq n 0). apply nth_error_Some. congruence. }
    apply (nth_error_nth _ _ 0%nat) in Hx.
    rewrite seq_nth in Hx by assumption. simpl in Hx. subst x.
    f_equal. apply IH. reflexivity.
Qed.

End IlocFacts.

(* ===================================================================== *)
(** ** DataDivideStrategy                                                *)
(* ===================================================================== *)

Section DivideFacts.
Context `{RS : Numpy.RandomState} `{FP : Numpy.FloatParser}.

Lemma drop_index labels df X :
  drop labels df = Return X -> index X = index df.
Proof.
  unfold drop. destruct (filter _ labels); [|discriminate].
  intros H; injection H as <-; reflexivity.
Qed.

Lemma getitem_Return c df y :
  getitem c df = Return y ->
  exists col, lookup c (columns df) = Some col /\
              y = {| name := c; s_index := index df; s_data := col |}.
Proof.
  unfold getitem. destruct (lookup c (columns df)) as [col|]; [|discriminate].
  intros H; injection H as <-. eauto.
Qed.

(** The handler of the divide strategy raises again, so a returned value
    is the value of the [try] block. *)
Lemma divide_handle_try data w r w' :
  DataDivideStrategy.handle_data data w = (Return r, w') ->
  divide_try data w = (Return r, w').
Proof.
  unfold DataDivideStrategy.handle_data, try_except.
  destruct (divide_try data w) as [[v|e] w1]; [auto|].
  unfold bindM, logging_error, emit, raise. discriminate.
Qed.

(** A returned split, taken apart: the features [X], the labels [y], the
    number of test rows and the four selections along the seeded
    permutation. *)
Lemma divide_handle_Return df w v w' :
  DataDivideStrategy.handle_data (PFrame df) w = (Return v, w') ->
  exists X y (n_test : nat),
    drop ["review_score"] df = Return X /\
    getitem "review_score" df = Return y /\
    w' = w /\
    Sklearn.ceil_share test_size (Z.of_nat (nrows df))
      = Return (Z.of_nat n_test) /\
    (0 < n_test < nrows df)%nat /\
    let p := Sklearn.seeded_permutation 42 (nrows df) in
    exists X_train X_test y_train y_test,
      v = PSplit X_train X_test y_train y_test /\
      frame_iloc X (skipn n_test p) = Return X_train /\
      frame_iloc X (firstn n_test p) = Return X_test /\
      series_iloc y (skipn n_test p) = Return y_train /\
      series_iloc y (firstn n_test p) = Return y_test.
Proof.
  intros H. apply divide_handle_try in H.
  unfold divide_try, bindM, lift in H. simpl py_drop in H.
  simpl py_getitem in H.
  destruct (drop ["review_score"] df) as [X|] eqn:HX; [|discriminate].
  destruct (getitem "review_score" df) as [y|] eqn:Hy; [|discriminate].
  destruct (Sklearn.train_test_split X y test_size (Some 42%Z) w)
    as [[parts|] w1] eqn:HS; [|discriminate].
  apply train_test_split_Return in HS
    as (n_test & -> & Hlen & Hc & Hn & HP).
  assert (HnX : nrows X = nrows df)
    by (unfold nrows; now rewrite (drop_index _ _ HX)).
  rewrite HnX in *.
  simpl in HP. destruct HP as (a & b & c & d & -> & Ha & Hb & Hc' & Hd).
  unfold ret in H. injection H as <- <-.
  exists X, y, n_test. repeat split; try assumption; try lia.
  simpl. exists a, b, c, d. auto.
Qed.

Lemma seeded_permutation_NoDup s n :
  NoDup (Sklearn.seeded_permutation s n).
Proof.
  eapply Permutation_NoDup; [|apply (seq_NoDup n 0)].
  apply Permutation_sym, Numpy.permutation_perm.
Qed.

(** Cutting the permutation after [k] entries partitions the positions. *)
Lemma cut_partition s n k :
  let p := Sklearn.seeded_permutation s n in
  NoDup (skipn k p ++ firstn k p) /\
  Permutation (skipn k p ++ firstn k p) (seq 0 n).
Proof.
  simpl. set (p := Sklearn.seeded_permutation s n).
  assert (HP : Permutation (skipn k p ++ firstn k p) p).
  { rewrite Permutation_app_comm, firstn_skipn. reflexivity. }
  split.
  - eapply Permutation_NoDup; [apply Permutation_sym, HP|].
    apply seeded_permutation_NoDup.
  - rewrite HP. apply Numpy.permutation_perm.
Qed.

End DivideFacts.

Section DivideClaims.
Context `{RS : Numpy.RandomState} `{FP : Numpy.FloatParser}.

Lemma positions_of_ceil n (n_test : nat) :
  Sklearn.ceil_share test_size (Z.of_nat n) = Return (Z.of_nat n_test) ->
  Spec.test_positions n = firstn n_test (Sklearn.seeded_permutation 42 n) /\
  Spec.train_positions n = skipn n_test (Sklearn.seeded_permutation 42 n).
Proof.
  intros H. unfold Spec.test_positions, Spec.train_positions.
  rewrite H, Nat2Z.id. auto.
Qed.

Lemma positions_lengths n (n_test : nat) :
  Sklearn.ceil_share test_size (Z.of_nat n) = Return (Z.of_nat n_test) ->
  (n_test <= n)%nat ->
  List.length (Spec.test_positions n) = n_test /\
  List.length (Spec.train_positions n) = (n - n_test)%nat.
Proof.
  intros H Hle. destruct (positions_of_ceil _ _ H) as [-> ->].
  rewrite length_firstn, length_skipn, seeded_permutation_length. lia.
Qed.

(** C1, as the code has it. When the divide strategy returns, it returns
    four parts; the test part has [ceil(0.2 * n)] rows (the binary64
    product, rounded up), the train part the remaining rows, the two
    feature tables together have the [n] rows of the input, and every
    label series is as long as its feature table. *)
Theorem split_sizes_ceil df w v w' :
  DataDivideStrategy.handle_data (PFrame df) w = (Return v, w') ->
  exists X_train X_test y_train y_test,
    v = PSplit X_train X_test y_train y_test /\
    Sklearn.ceil_share test_size (Z.of_nat (nrows df))
      = Return (Z.of_nat (nrows X_test)) /\
    nrows X_train = (nrows df - nrows X_test)%nat /\
    (nrows X_train + nrows X_test = nrows df)%nat /\
    nrows X_train = s_len y_train /\
    nrows X_test = s_len y_test.
Proof.
  intros H.
  apply divide_handle_Return in H
    as (X & y & n_test & HX & Hy & -> & Hc & Hn & HP).
  simpl in HP.
  destruct HP as (X_train & X_test & y_train & y_test & -> & H1 & H2 & H3 & H4).
  apply frame_iloc_Return in H1 as (_ & L1 & _).
  apply frame_iloc_Return in H2 as (_ & L2 & _).
  apply series_iloc_Return in H3 as (_ & L3 & _).
  apply series_iloc_Return in H4 as (_ & L4 & _).
  rewrite length_skipn, seeded_permutation_length in L1, L3.
  rewrite length_firstn, seeded_permutation_length in L2, L4.
  exists X_train, X_test, y_train, y_test.
  replace (nrows X_test) with n_test by lia.
  repeat split; try assumption; lia.
Qed.

End DivideClaims.

(** C1 at eleven rows: the split returns, three rows are test rows and
    eight are train rows. *)
Lemma split_sizes_ceil_witness :
  DataDivideStrategy.handle_data (PFrame (Samples.scored 11)) Samples.w0
    = (Return Samples.split_of_scored_11, Samples.w0)
  /\ exists X_train X_test y_train y_test,
    Samples.split_of_scored_11 = PSplit X_train X_test y_train y_test /\
    Sklearn.ceil_share test_size (Z.of_nat (nrows (Samples.scored 11)))
      = Return (Z.of_nat (nrows X_test)) /\
    nrows X_train = (nrows (Samples.scored 11) - nrows X_test)%nat /\
    (nrows X_train + nrows X_test = nrows (Samples.scored 11))%nat /\
    nrows X_train = s_len y_train /\
    nrows X_test = s_len y_test.
Proof.
  assert (H : DataDivideStrategy.handle_data (PFrame (Samples.scored 11))
                Samples.w0
              = (Return Samples.split_of_scored_11, Samples.w0))
    by (vm_compute; reflexivity).
  split; [exact H | exact (split_sizes_ceil _ _ H)].
Defined.

(** C1 as stated fails: on a table of eleven rows [floor(11 * 0.2)] is 2,
    while the test part returned has 3 rows. *)
Lemma split_sizes_floor_counterexample :
  exists X_train X_test y_train y_test,
    DataDivideStrategy.handle_data (PFrame (Samples.scored 11)) Samples.w0
      = (Return (PSplit X_train X_test y_train y_test), Samples.w0) /\
    nrows (Samples.scored 11) = 11%nat /\
    Spec.floor_share 11 = Return 2%Z /\
    nrows X_test = 3%nat /\
    Spec.floor_share (nrows (Samples.scored 11))
      <> Return (Z.of_nat (nrows X_test)).
Proof.
  destruct Samples.split_of_scored_11 as [| |a b c d] eqn:E;
    try discriminate E.
  exists a, b, c, d. injection E as <- <- <- <-.
  repeat split; try (vm_compute; reflexivity).
  vm_compute. discriminate.
Qed.

Section PartitionClaims.
Context `{RS : Numpy.RandomState} `{FP : Numpy.FloatParser}.

Lemma NoDup_app_apart {A} (l1 l2 : list A) :
  NoDup (l1 ++ l2) -> forall a, In a l1 -> ~ In a l2.
Proof.
  induction l1 as [|x l1 IH]; simpl; intros ND a Hin; [contradiction|].
  inversion ND as [|? ? Hx ND']; subst.
  destruct Hin as [<-|Hin].
  - intros H2. apply Hx, in_or_app. now right.
  - now apply IH.
Qed.

Lemma ceil_share_100 :
  Sklearn.ceil_share test_size 100 = Return 20%Z.
Proof. vm_compute. reflexivity. Qed.

Lemma all_from_spec f fuel z :
  Spec.all_from f fuel z = true ->
  forall x, (z <= x < z + Z.of_nat fuel)%Z -> f x = true.
Proof.
  revert z; induction fuel as [|k IH]; intros z H x Hx; [lia|].
  simpl in H. apply andb_true_iff in H as [Hz Hr].
  destruct (Z.eq_dec x z) as [->|Hne]; [assumption|].
  apply (@IH _ Hr). lia.
Qed.

(** Up to a thousand rows the binary64 product rounds to the exact
    share: the number of test rows is [ceil(n / 5)]. *)
Lemma ceil_share_small n :
  (0 <= n < 1000)%Z ->
  Sklearn.ceil_share test_size n = Return ((n + 4) / 5)%Z.
Proof.
  intros Hn.
  assert (A : Spec.all_from Spec.share_is_fifth 1000 0 = true)
    by (vm_compute; reflexivity).
  pose proof (@all_from_spec _ _ _ A n) as B.
  unfold Spec.share_is_fifth in B.
  destruct (Sklearn.ceil_share test_size n) as [t|e].
  - f_equal. apply Z.eqb_eq. apply B. lia.
  - discriminate B. lia.
Qed.

(** C7. When the divide strategy returns, the rows of the train part and
    of the test part are the rows of the input at [train_positions] and
    [test_positions]; no position is in both, every position of the input
    is in one of them, none is repeated; on a table with a range index
    the row labels of the two parts are these positions. A table of 100
    rows gives 20 test rows and 80 train rows. *)
Theorem split_partitions_rows df w v w' :
  DataDivideStrategy.handle_data (PFrame df) w = (Return v, w') ->
  let ind_train := Spec.train_positions (nrows df) in
  let ind_test := Spec.test_positions (nrows df) in
  exists X_train X_test y_train y_test,
    v = PSplit X_train X_test y_train y_test /\
    take (index df) ind_train = Return (index X_train) /\
    take (index df) ind_test = Return (index X_test) /\
    (forall i, In i ind_train -> ~ In i ind_test) /\
    (forall i, In i ind_train \/ In i ind_test <-> (i < nrows df)%nat) /\
    NoDup ind_train /\ NoDup ind_test /\
    (index df = RangeIndex (nrows df) ->
     index X_train = ind_train /\ index X_test = ind_test) /\
    (nrows df = 100%nat ->
     nrows X_test = 20%nat /\ nrows X_train = 80%nat).
Proof.
  intros H.
  apply divide_handle_Return in H
    as (X & y & n_test & HX & Hy & -> & Hc & Hn & HP).
  simpl in HP.
  destruct HP as (X_train & X_test & y_train & y_test & -> & H1 & H2 & H3 & H4).
  destruct (positions_of_ceil _ _ Hc) as [Et Er].
  simpl. rewrite Et, Er.
  destruct (cut_partition 42 (nrows df) n_test) as [ND PM]. simpl in ND, PM.
  apply frame_iloc_Return in H1 as (T1 & L1 & _).
  apply frame_iloc_Return in H2 as (T2 & L2 & _).
  rewrite (drop_index _ _ HX) in T1, T2.
  exists X_train, X_test, y_train, y_test.
  split; [reflexivity|]. split; [assumption|]. split; [assumption|].
  split; [exact (NoDup_app_apart _ _ ND)|].
  split.
  { intros i. rewrite <- in_app_iff.
    split; intros Hi.
    - apply (Permutation_in _ PM), in_seq in Hi. lia.
    - apply (Permutation_in _ (Permutation_sym PM)), in_seq. lia. }
  split; [exact (NoDup_app_remove_r _ _ ND)|].
  split; [exact (NoDup_app_remove_l _ _ ND)|].
  split.
  { intros R. unfold RangeIndex in R. rewrite R in T1, T2.
    split; eapply take_seq; eassumption. }
  intros E.
  rewrite length_skipn, seeded_permutation_length in L1.
  rewrite length_firstn, seeded_permutation_length in L2.
  rewrite E in Hc, L1, L2. change (Z.of_nat 100) with 100%Z in Hc.
  rewrite ceil_share_100 in Hc. injection Hc as Hc.
  split; lia.
Qed.

End PartitionClaims.

(** C7 at a hundred rows: the split returns, with 20 test rows and 80
    train rows at disjoint positions. *)
Lemma split_partitions_rows_witness :
  DataDivideStrategy.handle_data (PFrame (Samples.scored 100)) Samples.w0
    = (Return Samples.split_of_scored_100, Samples.w0)
  /\ exists X_train X_test y_train y_test,
    Samples.split_of_scored_100 = PSplit X_train X_test y_train y_test /\
    (forall i,
       In i (Spec.train_positions (RS := Samples.ReversedRange) 100) ->
       ~ In i (Spec.test_positions (RS := Samples.ReversedRange) 100)) /\
    index X_test = Spec.test_positions (RS := Samples.ReversedRange) 100 /\
    nrows X_test = 20%nat /\ nrows X_train = 80%nat.
Proof.
  assert (H : DataDivideStrategy.handle_data (PFrame (Samples.scored 100))
                Samples.w0
              = (Return Samples.split_of_scored_100, Samples.w0))
    by (vm_compute; reflexivity).
  split; [exact H|].
  destruct (split_partitions_rows _ _ H)
    as (a & b & c & d & E & _ & _ & D & _ & _ & _ & R & S).
  exists a, b, c, d.
  destruct (R eq_refl) as [_ Rt]. destruct (S eq_refl) as [St Sr].
  repeat split; assumption.
Defined.

Section AlignmentClaims.
Context `{RS : Numpy.RandomState} `{FP : Numpy.FloatParser}.

Lemma frame_row_drop labels df X i :
  drop labels df = Return X ->
  Spec.frame_row X i
  = filter (fun p => negb (mem (fst p) labels)) (Spec.frame_row df i).
Proof.
  unfold drop. destruct (filter _ labels); [|discriminate].
  intros H; injection H as <-. unfold Spec.frame_row; simpl.
  induction (columns df) as [|nc r IH]; simpl; [reflexivity|].
  destruct (negb (mem (fst nc) labels)); simpl; now rewrite IH.
Qed.

Lemma nth_error_in_range {A} (l : list A) i :
  (i < List.length l)%nat -> exists x, nth_error l i = Some x.
Proof.
  intros H. destruct (nth_error l i) as [x|] eqn:E; [eauto|].
  apply nth_error_None in E. lia.
Qed.

(** C8. When the divide strategy returns, features and labels follow the
    same positions: entry [j] of [y_test] is the [review_score] entry of
    the input row at the [j]-th test position, row [j] of [X_test] holds
    the feature entries of that same input row, and both carry its row
    label; likewise for the train part along the train positions. *)
Theorem split_keeps_rows_aligned df w v w' :
  DataDivideStrategy.handle_data (PFrame df) w = (Return v, w') ->
  exists score X_train X_test y_train y_test,
    v = PSplit X_train X_test y_train y_test /\
    lookup "review_score" (columns df) = Some score /\
    List.length (Spec.test_positions (nrows df)) = nrows X_test /\
    List.length (Spec.train_positions (nrows df)) = nrows X_train /\
    (forall j i, nth_error (Spec.test_positions (nrows df)) j = Some i ->
       (exists label, Spec.series_at y_test j = Some label /\
                      nth_error (col_values score) i = Some label) /\
       Spec.frame_row X_test j = Spec.features_row df i /\
       nth_error (index X_test) j = nth_error (index df) i /\
       nth_error (s_index y_test) j = nth_error (index df) i) /\
    (forall j i, nth_error (Spec.train_positions (nrows df)) j = Some i ->
       (exists label, Spec.series_at y_train j = Some label /\
                      nth_error (col_values score) i = Some label) /\
       Spec.frame_row X_train j = Spec.features_row df i /\
       nth_error (index X_train) j = nth_error (index df) i /\
       nth_error (s_index y_train) j = nth_error (index df) i).
Proof.
  intros H.
  apply divide_handle_Return in H
    as (X & y & n_test & HX & Hy & -> & Hc & Hn & HP).
  simpl in HP.
  destruct HP as (X_train & X_test & y_train & y_test & -> & H1 & H2 & H3 & H4).
  destruct (positions_of_ceil _ _ Hc) as [Et Er]. rewrite Et, Er.
  apply getitem_Return in Hy as (score & Hs & ->).
  pose proof (drop_index _ _ HX) as HI.
  assert (aligned : forall ind X' y',
    frame_iloc X ind = Return X' ->
    series_iloc {| name := "review_score"; s_index := index df;
                   s_data := score |} ind = Return y' ->
    List.length ind = nrows X' /\
    forall j i, nth_error ind j = Some i ->
       (exists label, Spec.series_at y' j = Some label /\
                      nth_error (col_values score) i = Some label) /\
       Spec.frame_row X' j = Spec.features_row df i /\
       nth_error (index X') j = nth_error (index df) i /\
       nth_error (s_index y') j = nth_error (index df) i).
  { intros ind X' y' HX' Hy'.
    pose proof Hy' as Hy''. unfold series_iloc in Hy''.
    apply bind_Return in Hy'' as (idx & _ & Hy'').
    apply bind_Return in Hy'' as (col & Hcol & Hy''). injection Hy'' as E.
    apply take_column_Return in Hcol as (_ & Hcol). simpl in Hcol.
    apply frame_iloc_Return in HX' as (_ & L & R).
    apply series_iloc_Return in Hy' as (_ & _ & R').
    split; [now rewrite L|].
    intros j i Hj. destruct (R _ _ Hj) as [Ri Rr].
    destruct (R' _ _ Hj) as [Ri' Rs]. simpl in Ri', Rs.
    destruct (take_nth_error _ _ Hcol _ Hj) as [_ Hlt].
    destruct (nth_error_in_range _ Hlt) as [label Hl].
    split; [exists label; split; [|exact Hl]|].
    { rewrite Rs. unfold Spec.series_at; simpl. exact Hl. }
    split; [|split].
    - rewrite Rr. unfold Spec.features_row.
      apply (frame_row_drop _ _ _ HX).
    - now rewrite Ri, HI.
    - exact Ri'. }
  destruct (aligned _ _ _ H2 H4) as [Lt At].
  destruct (aligned _ _ _ H1 H3) as [Lr Ar].
  exists score, X_train, X_test, y_train, y_test.
  repeat split; try assumption; try apply At; try apply Ar; assumption.
Qed.

End AlignmentClaims.

(** C8 at eleven rows: the first test position is row 10, whose score 11
    is the first entry of [y_test]. *)
Lemma split_keeps_rows_aligned_witness :
  DataDivideStrategy.handle_data (PFrame (Samples.scored 11)) Samples.w0
    = (Return Samples.split_of_scored_11, Samples.w0)
  /\ exists X_train X_test y_train y_test,
    Samples.split_of_scored_11 = PSplit X_train X_test y_train y_test /\
    nth_error (Spec.test_positions (RS := Samples.ReversedRange) 11) 0
      = Some 10%nat /\
    Spec.series_at y_test 0 = Some (CInt 11) /\
    Spec.frame_row X_test 0 = Spec.features_row (Samples.scored 11) 10.
Proof.
  assert (H : DataDivideStrategy.handle_data (PFrame (Samples.scored 11))
                Samples.w0
              = (Return Samples.split_of_scored_11, Samples.w0))
    by (vm_compute; reflexivity).
  split; [exact H|].
  destruct (split_keeps_rows_aligned _ _ H)
    as (score & a & b & c & d & E & Hs & _ & _ & At & _).
  assert (P : nth_error (Spec.test_positions (RS := Samples.ReversedRange)
                           (nrows (Samples.scored 11))) 0 = Some 10%nat)
    by (vm_compute; reflexivity).
  destruct (At _ _ P) as ((label & Hy & Hl) & Hr & _).
  exists a, b, c, d.
  split; [exact E|]. split; [exact P|]. split; [|exact Hr].
  rewrite Hy, <- Hl.
  simpl in Hs. injection Hs as <-. vm_compute. reflexivity.
Defined.

Section MissingScoreClaims.
Context `{RS : Numpy.RandomState} `{FP : Numpy.FloatParser}.

(** C9. On a table without the column [review_score] the divide strategy
    raises [KeyError] naming that column, after logging it; nothing is
    returned. *)
Theorem split_requires_score df w :
  mem "review_score" (names df) = false ->
  DataDivideStrategy.handle_data (PFrame df) w
  = (Raise (KeyError ["review_score"]),
     {| log := log w ++ [LogError "Error in dividing data: {}"
                                  (KeyError ["review_score"])];
        np_random := np_random w |}).
Proof.
  intros H.
  unfold DataDivideStrategy.handle_data, try_except, divide_try.
  unfold bindM at 1, lift at 1. simpl py_drop. unfold drop.
  simpl filter. rewrite H. simpl. reflexivity.
Qed.

(** C10. The value the divide strategy returns or the error it raises
    does not depend on the state of the program (the log, the global
    generator of NumPy): two runs on the same input agree, and a run
    leaves the global generator as it found it. *)
Theorem split_is_deterministic data w1 w2 :
  fst (DataDivideStrategy.handle_data data w1)
  = fst (DataDivideStrategy.handle_data data w2)
  /\ np_random (snd (DataDivideStrategy.handle_data data w1)) = np_random w1.
Proof.
  assert (pure : exists r, forall w, divide_try data w = (r, w)).
  { unfold divide_try, bindM, lift.
    destruct (py_drop data ["review_score"]) as [X|e]; [|eauto].
    destruct (py_getitem data "review_score") as [y|e]; [|eauto].
    unfold Sklearn.train_test_split.
    destruct (negb _); [unfold raise; eauto|].
    unfold bindM, lift.
    destruct (Sklearn.validate_shuffle_split_float _ _) as [sizes|e]; [|eauto].
    unfold Sklearn.ShuffleSplit_split, bindM, lift.
    destruct (Sklearn.validate_shuffle_split_int _ _ _) as [sz|e]; [|eauto].
    simpl. unfold ret.
    destruct (frame_iloc X _) as [a|e]; [|eauto].
    destruct (frame_iloc X _) as [b|e]; [|eauto].
    destruct (series_iloc y _) as [c|e]; [|eauto].
    destruct (series_iloc y _) as [d|e]; eauto. }
  destruct pure as [r Hr].
  unfold DataDivideStrategy.handle_data, try_except.
  rewrite !Hr. destruct r as [v|e]; simpl; auto.
Qed.

End MissingScoreClaims.

(** C9 on a table of prices only. *)
Lemma split_requires_score_witness :
  mem "review_score" (names Samples.unscored) = false
  /\ DataDivideStrategy.handle_data (PFrame Samples.unscored) Samples.w0
     = (Raise (KeyError ["review_score"]),
        {| log := log Samples.w0
                  ++ [LogError "Error in dividing data: {}"
                               (KeyError ["review_score"])];
           np_random := np_random Samples.w0 |}).
Proof.
  split; [reflexivity | apply split_requires_score; reflexivity].
Defined.

(** Without a seed the split draws from the global generator, and two
    runs on the same input differ. *)
Example unseeded_split_depends_on_state :
  fst (Sklearn.train_test_split
         {| index := RangeIndex 5; columns := [] |}
         {| name := "review_score"; s_index := RangeIndex 5;
            s_data := Samples.ints [1; 2; 3; 4; 5]%Z |}
         test_size None (Samples.world_at 1))
  <> fst (Sklearn.train_test_split
         {| index := RangeIndex 5; columns := [] |}
         {| name := "review_score"; s_index := RangeIndex 5;
            s_data := Samples.ints [1; 2; 3; 4; 5]%Z |}
         test_size None (Samples.world_at 2)).
Proof. vm_compute. discriminate. Qed.

(* ===================================================================== *)
(** ** Error handling                                                    *)
(* ===================================================================== *)

Section ErrorClaims.
Context `{RS : Numpy.RandomState} `{FP : Numpy.FloatParser}.

(** C2. An exception [e] raised by a step of the preprocessing [try]
    block is logged and the call returns [None]; an exception raised in
    the [try] block of the divide strategy, or by the strategy the
    context delegates to, is logged and raised again. *)
Theorem error_policies (data : pyval) (self : DataCleaning.t) (e : exn)
  (w w1 : World) :
  (preprocess_try data = Raise e ->
   DataPreProcessStrategy.handle_data data w
   = (Return PNone, logged "Error in preprocessing data: {}" e w)) /\
  (divide_try data w = (Raise e, w1) ->
   DataDivideStrategy.handle_data data w
   = (Raise e, logged "Error in dividing data: {}" e w1)) /\
  (strategy_handle_data (DataCleaning.strategy self)
     (DataCleaning.data self) w = (Raise e, w1) ->
   DataCleaning.handle_data self w
   = (Raise e, logged "Error in handling data: {}" e w1)).
Proof.
  split; [|split]; intros H.
  - unfold DataPreProcessStrategy.handle_data, try_except, bindM, lift.
    rewrite H. reflexivity.
  - unfold DataDivideStrategy.handle_data, try_except.
    rewrite H. reflexivity.
  - unfold DataCleaning.handle_data, try_except.
    rewrite H. reflexivity.
Qed.

Lemma bindM_Return {A B} (c : M A) (k : A -> M B) w b w' :
  bindM c k w = (Return b, w') ->
  exists a w1, c w = (Return a, w1) /\ k a w1 = (Return b, w').
Proof.
  unfold bindM. destruct (c w) as [[a|e] w1]; [eauto | discriminate].
Qed.

(** Handlers that raise again let only the value of the body through. *)
Lemma context_handle_Return self w v w' :
  DataCleaning.handle_data self w = (Return v, w') ->
  strategy_handle_data (DataCleaning.strategy self)
    (DataCleaning.data self) w = (Return v, w').
Proof.
  unfold DataCleaning.handle_data, try_except.
  destruct (strategy_handle_data _ _ w) as [[a|e] w1]; [auto|].
  unfold bindM, logging_error, emit, raise. discriminate.
Qed.

(** What the preprocessing returns: the cleaned frame and an untouched
    world, or [None] after logging. *)
Lemma preprocess_handle_cases data w :
  (exists out, preprocess_try data = Return out /\
     DataPreProcessStrategy.handle_data data w = (Return (PFrame out), w)) \/
  (exists e, preprocess_try data = Raise e /\
     DataPreProcessStrategy.handle_data data w
     = (Return PNone, logged "Error in preprocessing data: {}" e w)).
Proof.
  unfold DataPreProcessStrategy.handle_data, try_except, bindM, lift.
  destruct (preprocess_try data) as [out|e]; [left|right]; eauto.
Qed.

(** C3. When [clean_df] does not raise it returns [None]: the frame was
    cleaned and split into four parts, the completion was logged, and
    the parts were dropped at the end of the function. *)
Theorem clean_df_returns_None df w v w' :
  clean_df df w = (Return v, w') ->
  v = PNone /\
  exists cleaned X_train X_test y_train y_test,
    DataPreProcessStrategy.handle_data (PFrame df) w
      = (Return (PFrame cleaned), w) /\
    DataDivideStrategy.handle_data (PFrame cleaned) w
      = (Return (PSplit X_train X_test y_train y_test), w) /\
    w' = {| log := log w ++ [LogInfo "Data cleaning completed"];
            np_random := np_random w |}.
Proof.
  unfold clean_df. intros H.
  apply bindM_Return in H as (u & w2 & H & Hret).
  unfold ret in Hret. injection Hret as <- <-. split; [reflexivity|].
  unfold try_except in H.
  match type of H with
  | match ?body w with _ => _ end = _ =>
      destruct (body w) as [[a|e] w3] eqn:B
  end.
  2:{ unfold bindM, logging_error, emit, raise in H. discriminate. }
  injection H as -> ->.
  apply bindM_Return in B as (processed & wa & B1 & B).
  apply bindM_Return in B as (parts & wb & B2 & B).
  apply bindM_Return in B as (t & wc & B3 & B4).
  apply context_handle_Return in B1, B2. simpl in B1, B2.
  unfold lift in B3. injection B3 as B3 <-.
  destruct (preprocess_handle_cases (PFrame df) w)
    as [(out & _ & P) | (e & _ & P)];
    rewrite P in B1; injection B1 as <- <-.
  2:{ (* the divide strategy raises on None *)
      unfold DataDivideStrategy.handle_data, try_except, divide_try in B2.
      unfold bindM at 1, lift at 1 in B2. simpl in B2. discriminate. }
  pose proof B2 as D.
  apply divide_handle_Return in D as (X & y & n & _ & _ & -> & _ & _ & D).
  simpl in D. destruct D as (a & b & c & d & -> & _).
  exists out, a, b, c, d.
  split; [exact P|]. split; [exact B2|].
  unfold logging_info, emit in B4. injection B4 as _ <-. reflexivity.
Qed.

End ErrorClaims.

(** C2 at work: a table without the timestamp columns makes the
    preprocessing return [None]; a table without [review_score] makes the
    divide strategy raise, and the context around it raise again, each
    after its own log record. *)
Lemma error_policies_witness :
  let e1 := KeyError timestamp_columns in
  let e2 := KeyError ["review_score"] in
  let data := PFrame Samples.unscored in
  let self := {| DataCleaning.data := data; DataCleaning.strategy := Divide |} in
  let w1 := logged "Error in dividing data: {}" e2 Samples.w0 in
  (preprocess_try data = Raise e1 /\
   DataPreProcessStrategy.handle_data data Samples.w0
   = (Return PNone, logged "Error in preprocessing data: {}" e1 Samples.w0))
  /\
  (divide_try data Samples.w0 = (Raise e2, Samples.w0) /\
   DataDivideStrategy.handle_data data Samples.w0 = (Raise e2, w1))
  /\
  (strategy_handle_data (DataCleaning.strategy self)
     (DataCleaning.data self) Samples.w0 = (Raise e2, w1) /\
   DataCleaning.handle_data self Samples.w0
   = (Raise e2, logged "Error in handling data: {}" e2 w1)).
Proof.
  intros e1 e2 data self w1.
  assert (H1 : preprocess_try data = Raise e1) by reflexivity.
  assert (H2 : divide_try data Samples.w0 = (Raise e2, Samples.w0))
    by reflexivity.
  assert (H3 : strategy_handle_data (DataCleaning.strategy self)
                 (DataCleaning.data self) Samples.w0 = (Raise e2, w1))
    by reflexivity.
  split; [|split].
  - split; [exact H1|].
    exact (proj1 (error_policies data self e1 Samples.w0 Samples.w0) H1).
  - split; [exact H2|].
    exact (proj1 (proj2 (error_policies data self e2 Samples.w0 Samples.w0))
                 H2).
  - split; [exact H3|].
    exact (proj2 (proj2 (error_policies data self e2 Samples.w0 w1)) H3).
Defined.

(** C3 on the four sample orders: the step returns [None] after the
    frame was cleaned and split. *)
Lemma clean_df_returns_None_witness :
  let w' := @Build_World Samples.ReversedRange
              [LogInfo "Data cleaning completed"] tt in
  clean_df Samples.orders Samples.w0 = (Return PNone, w')
  /\ exists cleaned X_train X_test y_train y_test,
       DataPreProcessStrategy.handle_data (PFrame Samples.orders) Samples.w0
         = (Return (PFrame cleaned), Samples.w0) /\
       DataDivideStrategy.handle_data (PFrame cleaned) Samples.w0
         = (Return (PSplit X_train X_test y_train y_test), Samples.w0).
Proof.
  intros w'.
  assert (H : clean_df Samples.orders Samples.w0 = (Return PNone, w'))
    by (vm_compute; reflexivity).
  split; [exact H|].
  destruct (clean_df_returns_None _ _ H)
    as (_ & cleaned & a & b & c & d & P & D & _).
  exists cleaned, a, b, c, d. split; [exact P | exact D].
Defined.

(* ===================================================================== *)
(** ** Columns by name                                                   *)
(* ===================================================================== *)

Section ColumnFacts.
Context `{FP : Numpy.FloatParser}.

Lemma lookup_None_mem c cols :
  mem c (map fst cols) = false -> lookup c cols = None.
Proof.
  induction cols as [|[h col] r IH]; simpl; [reflexivity|].
  destruct (String.eqb c h); simpl; [discriminate | exact IH].
Qed.

Lemma mem_lookup c cols :
  mem c (map fst cols) = true <-> exists col, lookup c cols = Some col.
Proof.
  induction cols as [|[h col] r IH]; simpl.
  - split; [discriminate | intros [? ?]; discriminate].
  - destruct (String.eqb c h); simpl; [split; eauto | exact IH].
Qed.

Lemma mem_In c l : mem c l = true <-> In c l.
Proof.
  unfold mem. rewrite existsb_exists. split.
  - intros (x & Hx & E). apply String.eqb_eq in E. now subst.
  - intros H. exists c. split; [assumption | apply String.eqb_refl].
Qed.

(** A filter on names keeps or removes the column of a name. *)
Lemma lookup_filter_names (f : string -> bool) c cols :
  lookup c (filter (fun nc => f (fst nc)) cols)
  = if f c then lookup c cols else None.
Proof.
  induction cols as [|[h col] r IH]; simpl.
  - now destruct (f c).
  - destruct (String.eqb c h) eqn:E.
    + apply String.eqb_eq in E. subst h.
      destruct (f c) eqn:F; simpl.
      * now rewrite String.eqb_refl.
      * exact IH.
    + destruct (f h); simpl; [rewrite E|]; exact IH.
Qed.

(** With unique names, a filter on columns decides on the one column of
    a name. *)
Lemma lookup_filter_columns (P : string * Column -> bool) c cols :
  nodup_names (map fst cols) = true ->
  lookup c (filter P cols)
  = match lookup c cols with
    | Some col => if P (c, col) then Some col else None
    | None => None
    end.
Proof.
  induction cols as [|[h col] r IH]; simpl; [reflexivity|].
  intros ND. apply andb_true_iff in ND as [Hh ND].
  apply negb_true_iff in Hh.
  destruct (String.eqb c h) eqn:E.
  - apply String.eqb_eq in E. subst h.
    destruct (P (c, col)); simpl.
    + now rewrite String.eqb_refl.
    + rewrite (IH ND), (lookup_None_mem _ _ Hh). reflexivity.
  - destruct (P (h, col)); simpl; [rewrite E|]; exact (IH ND).
Qed.

Lemma names_set_column c col cols :
  map fst (set_column c col cols) = map fst cols.
Proof.
  induction cols as [|[h colh] r IH]; simpl; [reflexivity|].
  destruct (String.eqb c h); simpl; [reflexivity | now rewrite IH].
Qed.

Lemma lookup_set_column c k col' cols :
  lookup c (set_column k col' cols)
  = if String.eqb c k
    then match lookup k cols with Some _ => Some col' | None => None end
    else lookup c cols.
Proof.
  induction cols as [|[h colh] r IH]; simpl.
  - now destruct (String.eqb c k).
  - destruct (String.eqb k h) eqn:Ekh; simpl.
    + apply String.eqb_eq in Ekh. subst h.
      now destruct (String.eqb c k).
    + destruct (String.eqb c h) eqn:Ech.
      * apply String.eqb_eq in Ech. subst h.
        rewrite String.eqb_sym, Ekh. reflexivity.
      * exact IH.
Qed.

Lemma nodup_names_filter (f : string -> bool) l :
  nodup_names l = true -> nodup_names (filter f l) = true.
Proof.
  induction l as [|h r IH]; simpl; [reflexivity|].
  intros ND. apply andb_true_iff in ND as [Hh ND].
  destruct (f h); simpl; [|now apply IH].
  rewrite (IH ND), andb_true_r.
  apply negb_true_iff in Hh. apply negb_true_iff.
  destruct (mem h (filter f r)) eqn:M; [|reflexivity].
  apply mem_In, filter_In in M as [M _]. apply mem_In in M. congruence.
Qed.

Lemma map_fst_filter_names (f : string -> bool) (cols : list (string * Column)) :
  map fst (filter (fun nc => f (fst nc)) cols) = filter f (map fst cols).
Proof.
  induction cols as [|[h col] r IH]; simpl; [reflexivity|].
  destruct (f h); simpl; now rewrite IH.
Qed.

End ColumnFacts.

(* ===================================================================== *)
(** ** DataPreProcessStrategy                                            *)
(* ===================================================================== *)

Section PreprocessFacts.
Context `{FP : Numpy.FloatParser}.

Lemma drop_Return labels df X :
  drop labels df = Return X ->
  index X = index df /\
  columns X = filter (fun nc => negb (mem (fst nc) labels)) (columns df) /\
  forall l, In l labels -> mem l (names df) = true.
Proof.
  unfold drop.
  destruct (filter _ labels) as [|m r] eqn:F; [|discriminate].
  intros H; injection H as <-. simpl. repeat split.
  intros l Hl. destruct (mem l (names df)) eqn:M; [reflexivity|].
  assert (In l (filter (fun l => negb (mem l (names df))) labels)).
  { apply filter_In. split; [assumption | now rewrite M]. }
  rewrite F in H. contradiction.
Qed.

Lemma fillna_median_Return c d d' :
  fillna_median c d = Return d' ->
  exists col,
    lookup c (columns d) = Some col /\
    index d' = index d /\
    columns d'
    = set_column c (fillna (CFloat (Spec.column_median col)) col) (columns d).
Proof.
  unfold fillna_median, getitem.
  destruct (lookup c (columns d)) as [col|]; [|discriminate].
  simpl. unfold median. simpl.
  destruct (mapM to_float64 (col_values col)) as [a|] eqn:E; [|discriminate].
  simpl. intros H; injection H as <-. exists col.
  unfold Spec.column_median. rewrite E.
  split; [reflexivity|]. split; reflexivity.
Qed.

Lemma fillna_const_Return c value d d' :
  fillna_const c value d = Return d' ->
  exists col,
    lookup c (columns d) = Some col /\
    index d' = index d /\
    columns d' = set_column c (fillna value col) (columns d).
Proof.
  unfold fillna_const, getitem.
  destruct (lookup c (columns d)) as [col|]; [|discriminate].
  simpl. intros H; injection H as <-. exists col. auto.
Qed.

(** One in-place fill, seen from the columns [cols0] the fills started
    from: [g] says what was made of each column so far, [D] which names
    were dropped, and the column [k] filled now was not touched before. *)
Lemma fill_step (D : string -> bool) (g : string -> Column -> Column)
  (h : Column -> Column) k col cols cols0 :
  (forall c, lookup c cols
             = if D c then None else option_map (g c) (lookup c cols0)) ->
  (forall col0, g k col0 = col0) ->
  lookup k cols = Some col ->
  forall c, lookup c (set_column k (h col) cols)
            = if D c then None
              else option_map
                     (fun col0 => if String.eqb c k then h col0 else g c col0)
                     (lookup c cols0).
Proof.
  intros I Hk L c. rewrite lookup_set_column.
  destruct (String.eqb c k) eqn:E.
  - apply String.eqb_eq in E. subst c. rewrite L.
    rewrite I in L. destruct (D k); [discriminate|].
    destruct (lookup k cols0) as [col0|]; [|discriminate].
    simpl in *. rewrite Hk in L. now injection L as <-.
  - rewrite I. destruct (D c); [reflexivity|].
    now destruct (lookup c cols0).
Qed.

End PreprocessFacts.

Section PreprocessChain.
Context `{FP : Numpy.FloatParser}.

(** The frame after the five fills, column by column, and the two steps
    that remain. *)
Lemma preprocess_try_Return df out :
  preprocess_try (PFrame df) = Return out ->
  exists d5,
    index d5 = index df /\
    map fst (columns d5)
    = filter (fun c => negb (mem c timestamp_columns)) (names df) /\
    (forall c, lookup c (columns d5)
               = if mem c timestamp_columns then None
                 else option_map (Spec.cleaned_column c)
                                 (lookup c (columns df))) /\
    drop cols_to_drop (select_dtypes_number d5) = Return out /\
    (forall c, In c timestamp_columns -> mem c (names df) = true) /\
    (forall c, In c Spec.product_columns ->
               exists col, lookup c (columns df) = Some col).
Proof.
  unfold preprocess_try. simpl py_drop. intros H.
  apply bind_Return in H as (d0 & H0 & H).
  apply bind_Return in H as (d1 & H1 & H).
  apply bind_Return in H as (d2 & H2 & H).
  apply bind_Return in H as (d3 & H3 & H).
  apply bind_Return in H as (d4 & H4 & H).
  apply bind_Return in H as (d5 & H5 & H).
  apply bind_Return in H as (d7 & H7 & H). injection H as <-.
  apply drop_Return in H0 as (I0 & C0 & M0).
  apply fillna_median_Return in H1 as (c1 & L1 & I1 & C1).
  apply fillna_median_Return in H2 as (c2 & L2 & I2 & C2).
  apply fillna_median_Return in H3 as (c3 & L3 & I3 & C3).
  apply fillna_median_Return in H4 as (c4 & L4 & I4 & C4).
  apply fillna_const_Return in H5 as (c5 & L5 & I5 & C5).
  exists d5. split; [congruence|]. split.
  { rewrite C5, names_set_column, C4, names_set_column, C3, names_set_column,
      C2, names_set_column, C1, names_set_column, C0.
    apply (map_fst_filter_names
             (fun c => negb (mem c timestamp_columns))). }
  set (D := fun c => mem c timestamp_columns).
  set (hm := fun col => fillna (CFloat (Spec.column_median col)) col).
  assert (S0 : forall c, lookup c (columns d0)
                 = if D c then None
                   else option_map (fun col0 => col0) (lookup c (columns df))).
  { intros c. rewrite C0.
    rewrite (lookup_filter_names (fun c => negb (mem c timestamp_columns))).
    unfold D. destruct (mem c timestamp_columns); simpl; [reflexivity|].
    now destruct (lookup c (columns df)). }
  pose proof (@fill_step D _ hm "product_weight_g" _ _ _ S0
                (fun _ => eq_refl) L1) as S1.
  unfold hm in S1; cbv beta in S1; rewrite <- C1 in S1.
  pose proof (@fill_step D _ hm "product_length_cm" _ _ _ S1
                (fun _ => eq_refl) L2) as S2.
  unfold hm in S2; cbv beta in S2; rewrite <- C2 in S2.
  pose proof (@fill_step D _ hm "product_height_cm" _ _ _ S2
                (fun _ => eq_refl) L3) as S3.
  unfold hm in S3; cbv beta in S3; rewrite <- C3 in S3.
  pose proof (@fill_step D _ hm "product_width_cm" _ _ _ S3
                (fun _ => eq_refl) L4) as S4.
  unfold hm in S4; cbv beta in S4; rewrite <- C4 in S4.
  pose proof (@fill_step D _ (fillna (CStr "No Review"))
                "review_comment_message" _ _ _ S4
                (fun _ => eq_refl) L5) as S5.
  cbv beta in S5; rewrite <- C5 in S5.
  assert (P : forall c, In c Spec.product_columns ->
                        exists col, lookup c (columns df) = Some col).
  { intros c [<-|[<-|[<-|[<-|[]]]]].
    - rewrite S0 in L1. simpl in L1.
      destruct (lookup _ (columns df)); [eauto | discriminate].
    - rewrite S1 in L2. simpl in L2.
      destruct (lookup _ (columns df)); [eauto | discriminate].
    - rewrite S2 in L3. simpl in L3.
      destruct (lookup _ (columns df)); [eauto | discriminate].
    - rewrite S3 in L4. simpl in L4.
      destruct (lookup _ (columns df)); [eauto | discriminate]. }
  split; [|split; [exact H7 | split; [exact M0 | exact P]]].
  intros c. rewrite S5. unfold D.
  destruct (mem c timestamp_columns); [reflexivity|].
  destruct (lookup c (columns df)) as [col0|]; [|reflexivity].
  simpl. f_equal. unfold Spec.cleaned_column, Spec.product_columns, mem.
  simpl existsb.
  destruct (String.eqb c "review_comment_message"); [reflexivity|].
  destruct (String.eqb c "product_width_cm");
    [now rewrite !orb_true_r|].
  destruct (String.eqb c "product_height_cm");
    [now rewrite !orb_true_r|].
  destruct (String.eqb c "product_length_cm");
    [now rewrite !orb_true_r|].
  destruct (String.eqb c "product_weight_g"); reflexivity.
Qed.

End PreprocessChain.

Section PreprocessOutput.
Context `{RS : Numpy.RandomState} `{FP : Numpy.FloatParser}.

(** A frame returned by the preprocessing is the value of its [try]
    block, and nothing was logged. *)
Lemma preprocess_handle_Return data w out w' :
  DataPreProcessStrategy.handle_data data w = (Return (PFrame out), w') ->
  preprocess_try data = Return out /\ w' = w.
Proof.
  intros H.
  destruct (preprocess_handle_cases data w)
    as [(o & T & P) | (e & _ & P)]; rewrite P in H.
  - injection H as <- <-. auto.
  - discriminate.
Qed.

(** The columns of the cleaned frame, name by name. *)
Lemma preprocess_lookup df out :
  nodup_names (names df) = true ->
  preprocess_try (PFrame df) = Return out ->
  index out = index df /\
  (forall nc, In nc (columns out) -> is_number (col_dtype (snd nc)) = true) /\
  forall c,
    lookup c (columns out)
    = if mem c Spec.dropped_columns then None
      else match lookup c (columns df) with
           | Some col =>
               if is_number (col_dtype (Spec.cleaned_column c col))
               then Some (Spec.cleaned_column c col) else None
           | None => None
           end.
Proof.
  intros ND H.
  apply preprocess_try_Return in H as (d5 & I5 & N5 & L5 & H & _ & _).
  apply drop_Return in H as (I & C & _). simpl in I, C.
  split; [congruence|]. split.
  { intros nc Hin. rewrite C in Hin.
    apply filter_In in Hin as [Hin _]. now apply filter_In in Hin as [_ ?]. }
  intros c. rewrite C.
  rewrite (lookup_filter_names (fun c => negb (mem c cols_to_drop))).
  rewrite (lookup_filter_columns
             (fun nc => is_number (col_dtype (snd nc)))).
  2:{ rewrite N5. now apply nodup_names_filter. }
  rewrite L5. unfold Spec.dropped_columns, mem.
  rewrite existsb_app. fold (mem c timestamp_columns).
  fold (mem c cols_to_drop).
  destruct (mem c timestamp_columns), (mem c cols_to_drop); simpl;
    try reflexivity.
  now destruct (lookup c (columns df)).
Qed.

Lemma lookup_In c cols col :
  lookup c cols = Some col -> In (c, col) cols.
Proof.
  induction cols as [|[h colh] r IH]; simpl; [discriminate|].
  destruct (String.eqb c h) eqn:E.
  - apply String.eqb_eq in E. subst h. intros H; injection H as <-. now left.
  - intros H. right. now apply IH.
Qed.

Lemma wf_frame_column df c col :
  wf_frame df = true -> lookup c (columns df) = Some col ->
  nodup_names (names df) = true /\
  forallb (cell_of_dtype (col_dtype col)) (col_values col) = true.
Proof.
  unfold wf_frame. intros W L. apply andb_true_iff in W as [ND W].
  split; [assumption|].
  rewrite forallb_forall in W. apply lookup_In in L.
  specialize (W _ L). simpl in W. unfold wf_column in W.
  now apply andb_true_iff in W as [_ ?].
Qed.

Lemma typed_int_present v :
  forallb (cell_of_dtype int64) v = true -> existsb isna v = false.
Proof.
  induction v as [|c r IH]; simpl; [reflexivity|].
  intros H. apply andb_true_iff in H as [Hc Hr].
  destruct c; try discriminate. simpl. now apply IH.
Qed.

Lemma int_cells_are_numbers v :
  forallb is_int_cell v = true -> forallb is_number_cell v = true.
Proof.
  induction v as [|c r IH]; simpl; [reflexivity|].
  intros H. apply andb_true_iff in H as [Hc Hr].
  destruct c; try discriminate. now apply IH.
Qed.

(** The soft conversion gives a numeric block exactly for numbers. *)
Lemma soft_convert_is_number v :
  is_number (col_dtype (soft_convert v)) = forallb is_number_cell v.
Proof.
  unfold soft_convert.
  destruct (forallb is_int_cell v) eqn:I.
  - simpl. symmetry. now apply int_cells_are_numbers.
  - destruct (forallb is_number_cell v); [reflexivity|].
    now destruct (forallb is_bool_cell v).
Qed.

Lemma filled_text_not_numbers s v :
  existsb isna v = true ->
  forallb is_number_cell (map (fun c => if isna c then CStr s else c) v)
  = false.
Proof.
  induction v as [|c r IH]; simpl; [discriminate|].
  destruct (isna c) eqn:N; simpl; [reflexivity|].
  intros H. rewrite (IH H). apply andb_false_r.
Qed.

Lemma filled_float_numbers m v :
  forallb is_number_cell (map (fun c => if isna c then CFloat m else c) v)
  = forallb (fun c => isna c || is_number_cell c) v.
Proof.
  induction v as [|c r IH]; simpl; [reflexivity|].
  rewrite IH. now destruct (isna c).
Qed.

(** Which columns are numeric after the fills: the numeric columns,
    except the comment column when it has a missing entry to take the
    text, and the object product columns that the median fill turns
    into float columns. *)
Lemma cleaned_column_is_number c col :
  forallb (cell_of_dtype (col_dtype col)) (col_values col) = true ->
  is_number (col_dtype (Spec.cleaned_column c col))
  = (is_number (col_dtype col) && negb (Spec.retyped_by_fill (c, col)))
    || Spec.promoted_by_fill (c, col).
Proof.
  intros T. unfold Spec.cleaned_column, Spec.retyped_by_fill,
    Spec.promoted_by_fill.
  change (fst (c, col)) with c. change (snd (c, col)) with col.
  destruct col as [d v]. cbn [col_dtype col_values] in *.
  destruct (String.eqb c "review_comment_message") eqn:Er.
  - apply String.eqb_eq in Er. subst c.
    change (mem "review_comment_message" Spec.product_columns) with false.
    cbn [andb]. rewrite orb_false_r. unfold fillna.
    cbn [col_dtype col_values can_hold].
    destruct d; cbn [is_number andb negb col_dtype];
      try rewrite (typed_int_present _ T); try reflexivity;
      destruct (existsb isna v) eqn:E; try reflexivity;
      rewrite soft_convert_is_number;
      now apply filled_text_not_numbers.
  - cbn [andb]. destruct (mem c Spec.product_columns).
    + unfold fillna. cbn [col_dtype col_values can_hold andb].
      destruct d; cbn [is_number Spec.is_object andb orb col_dtype];
        try reflexivity;
        destruct (existsb isna v) eqn:E; cbn [andb orb col_dtype is_number];
        try reflexivity.
      rewrite soft_convert_is_number. apply filled_float_numbers.
    + cbn [andb]. now rewrite andb_true_r, orb_false_r.
Qed.

End PreprocessOutput.

Section PreprocessClaims.
Context `{RS : Numpy.RandomState} `{FP : Numpy.FloatParser}.


Lemma In_names_lookup c cols :
  In c (map fst cols) <-> exists col, lookup c cols = Some col.
Proof. rewrite <- mem_In. apply mem_lookup. Qed.

(** C4, as the code has it. On a well-formed table for which the
    preprocessing returns a table, every column returned is numeric, the
    rows are those of the input, and the columns returned are those that
    no [drop] names and that are numeric after the fills: the numeric
    columns of the input, without the column [review_comment_message]
    when it holds a missing entry, and with the product columns of object
    dtype that hold a missing entry and otherwise only numbers. *)
Theorem preprocess_output_columns df w out w' :
  wf_frame df = true ->
  DataPreProcessStrategy.handle_data (PFrame df) w
    = (Return (PFrame out), w') ->
  (forall c col, In (c, col) (columns out) ->
                 is_number (col_dtype col) = true) /\
  (forall c, In c (names out) <-> In c (Spec.kept_columns df)) /\
  index out = index df /\
  nrows out = nrows df.
Proof.
  intros W H. apply preprocess_handle_Return in H as [H _].
  assert (ND : nodup_names (names df) = true).
  { unfold wf_frame in W. now apply andb_true_iff in W as [? _]. }
  apply (preprocess_lookup _ ND) in H as (I & N & L).
  split; [intros c col Hin; exact (N _ Hin)|].
  split; [|split; [exact I | unfold nrows; now rewrite I]].
  intros c. unfold names, Spec.kept_columns.
  rewrite !In_names_lookup.
  rewrite lookup_filter_columns by exact ND. rewrite L.
  destruct (lookup c (columns df)) as [col|] eqn:Lc.
  2:{ destruct (mem c Spec.dropped_columns);
        split; intros [x Hx]; discriminate. }
  destruct (wf_frame_column _ _ W Lc) as [_ T].
  rewrite (cleaned_column_is_number c _ T).
  cbn [fst snd].
  destruct (mem c Spec.dropped_columns); cbn [negb andb].
  { split; intros [x Hx]; discriminate. }
  destruct (is_number (col_dtype col) && negb (Spec.retyped_by_fill (c, col))
            || Spec.promoted_by_fill (c, col));
    split; intros [x Hx]; try discriminate; eauto.
Qed.

End PreprocessClaims.

Section FloatFacts.
















End FloatFacts.

Section ImputationFacts.
Context `{FP : Numpy.FloatParser}.


Lemma present_nil v : forallb isna v = true -> Spec.present v = [].
Proof.
  unfold Spec.present. induction v as [|c r IH]; simpl; [reflexivity|].
  intros H. apply andb_true_iff in H as [Hc Hr].
  rewrite Hc. simpl. now apply IH.
Qed.











End ImputationFacts.

Section ImputationClaims.
Context `{RS : Numpy.RandomState} `{FP : Numpy.FloatParser}.


End ImputationClaims.


(** C4 on the sample orders: six numeric columns come back, among them
    [price] and not the comment column. *)
Lemma preprocess_output_columns_witness :
  wf_frame Samples.orders = true
  /\ DataPreProcessStrategy.handle_data (PFrame Samples.orders) Samples.w0
     = (Return Samples.cleaned_orders, Samples.w0)
  /\ exists out,
       Samples.cleaned_orders = PFrame out /\
       (forall c col, In (c, col) (columns out) ->
                      is_number (col_dtype col) = true) /\
       (forall c, In c (names out) <-> In c (Spec.kept_columns Samples.orders))
       /\ index out = index Samples.orders
       /\ nrows out = nrows Samples.orders.
Proof.
  assert (W : wf_frame Samples.orders = true) by reflexivity.
  assert (H : DataPreProcessStrategy.handle_data (PFrame Samples.orders)
                Samples.w0
              = (Return Samples.cleaned_orders, Samples.w0))
    by (vm_compute; reflexivity).
  split; [exact W|]. split; [exact H|].
  destruct Samples.cleaned_orders as [|out|] eqn:E; try discriminate E.
  exists out. split; [reflexivity|].
  exact (preprocess_output_columns _ _ W H).
Defined.

(** C4 as stated fails: when no order has a comment the column
    [review_comment_message] is a float column of NaN, hence a numeric
    column of the input that no [drop] names; the text fill turns it into
    an object column and the returned table does not have it. *)
Lemma preprocess_output_columns_counterexample :
  wf_frame Samples.orders_no_comment = true /\
  exists out,
    DataPreProcessStrategy.handle_data (PFrame Samples.orders_no_comment)
      Samples.w0 = (Return (PFrame out), Samples.w0) /\
    In "review_comment_message"
       (Spec.numeric_minus_dropped Samples.orders_no_comment) /\
    ~ In "review_comment_message" (names out).
Proof.
  split; [reflexivity|].
  destruct Samples.cleaned_orders_no_comment as [|out|] eqn:E;
    try discriminate E.
  exists out. injection E as <-.
  split; [vm_compute; reflexivity|]. split.
  - apply mem_In. reflexivity.
  - intros H. apply mem_In in H. vm_compute in H. discriminate.
Qed.



(** An object column of numbers and [None] is imputed as well: the
    weights [1, 2, None, 4], integers in an object column, come back as
    the float column [1.0, 2.0, 2.0, 4.0]; and weights written as text,
    ["1", "2", None, "4"], have the median 2.0 but stay an object column,
    which the numeric filter removes. *)
Example preprocess_imputes_object_columns :
  (exists out,
     DataPreProcessStrategy.handle_data (PFrame Samples.orders_object_weight)
       Samples.w0 = (Return (PFrame out), Samples.w0) /\
     lookup "product_weight_g" (columns out)
     = Some (Samples.floats
               [Samples.F 1; Samples.F 2; Samples.F 2; Samples.F 4])) /\
  (exists out,
     DataPreProcessStrategy.handle_data (PFrame Samples.orders_digits_weight)
       Samples.w0 = (Return (PFrame out), Samples.w0) /\
     lookup "product_weight_g" (columns out) = None /\
     lookup "price" (columns out)
     = Some (Samples.floats
               [Samples.F 10; Samples.F 20; Samples.F 30; Samples.F 40])).
Proof.
  split.
  - destruct Samples.cleaned_orders_object_weight as [|out|] eqn:E;
      try discriminate E.
    exists out. injection E as <-. split; vm_compute; reflexivity.
  - destruct Samples.cleaned_orders_digits_weight as [|out|] eqn:E;
      try discriminate E.
    exists out. injection E as <-.
    split; [|split]; vm_compute; reflexivity.
Qed.

(** The orders as the data set names its columns: the preprocessing does
    not find [custopmer_zip_code_prefix], logs the [KeyError] and returns
    [None]; the step then fails in the divide strategy, which is handed
    [None]. *)
Example preprocess_zip_spelled :
  DataPreProcessStrategy.handle_data (PFrame Samples.orders_zip_spelled)
    Samples.w0
  = (Return PNone,
     logged "Error in preprocessing data: {}"
            (KeyError ["custopmer_zip_code_prefix"]) Samples.w0)
  /\ fst (clean_df Samples.orders_zip_spelled Samples.w0)
     = Raise (AttributeError "NoneType" "drop").
Proof. split; vm_compute; reflexivity. Qed.

(* ===================================================================== *)
(** ** Further properties of the divide strategy                         *)
(* ===================================================================== *)

Section DivideEdges.
Context `{RS : Numpy.RandomState} `{FP : Numpy.FloatParser}.

(** The [try] block of the divide strategy neither reads nor writes the
    world. *)
Lemma divide_try_pure data :
  exists r, forall w, divide_try data w = (r, w).
Proof.
  unfold divide_try, bindM, lift.
  destruct (py_drop data ["review_score"]) as [X|e]; [|eauto].
  destruct (py_getitem data "review_score") as [y|e]; [|eauto].
  unfold Sklearn.train_test_split.
  destruct (negb _); [unfold raise; eauto|].
  unfold bindM, lift.
  destruct (Sklearn.validate_shuffle_split_float _ _) as [sizes|e]; [|eauto].
  unfold Sklearn.ShuffleSplit_split, bindM, lift.
  destruct (Sklearn.validate_shuffle_split_int _ _ _) as [sz|e]; [|eauto].
  simpl. unfold ret.
  destruct (frame_iloc X _) as [a|e]; [|eauto].
  destruct (frame_iloc X _) as [b|e]; [|eauto].
  destruct (series_iloc y _) as [c|e]; [|eauto].
  destruct (series_iloc y _) as [d|e]; eauto.
Qed.

(** The divide strategy logs exactly when it raises: a call that returns
    leaves the world as it was, a call that raises has appended one
    record, which carries the exception raised; and a call on anything
    but a frame raises [AttributeError] for the attribute [drop]. *)
Theorem divide_logs_iff_raises data w :
  ((exists v, DataDivideStrategy.handle_data data w = (Return v, w)) \/
   (exists e, DataDivideStrategy.handle_data data w
              = (Raise e, logged "Error in dividing data: {}" e w))) /\
  ((forall df, data <> PFrame df) ->
   DataDivideStrategy.handle_data data w
   = (Raise (AttributeError (type_name data) "drop"),
      logged "Error in dividing data: {}"
             (AttributeError (type_name data) "drop") w)).
Proof.
  split.
  - destruct (divide_try_pure data) as [r Hr].
    unfold DataDivideStrategy.handle_data, try_except. rewrite Hr.
    destruct r as [v|e]; [left; eauto | right; exists e; reflexivity].
  - intros H. destruct data as [|df|a b c d]; try reflexivity.
    now destruct (H df).
Qed.

(** Both parts of a returned split are non-empty: the table has at least
    two rows, the test part at least one and fewer than the table; below
    a thousand rows the test part has exactly [ceil(n / 5)] rows. *)
Theorem split_parts_nonempty df w X_train X_test y_train y_test w' :
  DataDivideStrategy.handle_data (PFrame df) w
    = (Return (PSplit X_train X_test y_train y_test), w') ->
  (2 <= nrows df)%nat /\
  (0 < nrows X_test < nrows df)%nat /\
  (0 < nrows X_train < nrows df)%nat /\
  ((nrows df < 1000)%nat -> nrows X_test = ((nrows df + 4) / 5)%nat).
Proof.
  intros H.
  apply divide_handle_Return in H
    as (X & y & n_test & HX & Hy & -> & Hc & Hn & HP).
  simpl in HP. destruct HP as (a & b & c & d & E & H1 & H2 & _).
  injection E as <- <- <- <-.
  apply frame_iloc_Return in H1 as (_ & L1 & _).
  apply frame_iloc_Return in H2 as (_ & L2 & _).
  rewrite length_skipn, seeded_permutation_length in L1.
  rewrite length_firstn, seeded_permutation_length in L2.
  repeat split; try lia.
  intros Hs. rewrite ceil_share_small in Hc by lia.
  injection Hc as Hc.
  replace (nrows X_test) with n_test by lia.
  apply Nat2Z.inj. rewrite <- Hc.
  rewrite Nat2Z.inj_div, Nat2Z.inj_add. reflexivity.
Qed.

End DivideEdges.

(** Handed [None], the divide strategy raises [AttributeError] and logs
    it once. *)
Lemma divide_logs_iff_raises_witness :
  (forall df, PNone <> PFrame df) /\
  DataDivideStrategy.handle_data PNone Samples.w0
  = (Raise (AttributeError "NoneType" "drop"),
     logged "Error in dividing data: {}"
            (AttributeError "NoneType" "drop") Samples.w0).
Proof.
  assert (H : forall df, PNone <> PFrame df) by (intros df; discriminate).
  split; [exact H|].
  exact (proj2 (divide_logs_iff_raises PNone Samples.w0) H).
Defined.

(** Eleven rows: three test rows, eight train rows. *)
Lemma split_parts_nonempty_witness :
  exists X_train X_test y_train y_test,
    DataDivideStrategy.handle_data (PFrame (Samples.scored 11)) Samples.w0
      = (Return (PSplit X_train X_test y_train y_test), Samples.w0) /\
    (0 < nrows X_test < 11)%nat /\ (0 < nrows X_train < 11)%nat /\
    nrows X_test = 3%nat.
Proof.
  destruct Samples.split_of_scored_11 as [| |a b c d] eqn:E;
    try discriminate E.
  exists a, b, c, d.
  assert (H : DataDivideStrategy.handle_data (PFrame (Samples.scored 11))
                Samples.w0 = (Return (PSplit a b c d), Samples.w0))
    by (injection E as <- <- <- <-; vm_compute; reflexivity).
  split; [exact H|].
  destruct (split_parts_nonempty _ _ H) as (_ & Ht & Hr & Hs).
  split; [exact Ht|]. split; [exact Hr|].
  apply Hs. vm_compute. lia.
Defined.

Section SmallTables.
Context `{RS : Numpy.RandomState} `{FP : Numpy.FloatParser}.

Lemma drop_present labels df :
  Contract.missing labels df = [] ->
  drop labels df
  = Return {| index := index df;
              columns := filter (fun nc => negb (mem (fst nc) labels))
                                (columns df) |}.
Proof. unfold drop, Contract.missing. now intros ->. Qed.

Lemma getitem_present c df :
  mem c (names df) = true ->
  exists col, lookup c (columns df) = Some col /\
    getitem c df
    = Return {| name := c; s_index := index df; s_data := col |}.
Proof.
  intros H. apply mem_lookup in H as [col L]. exists col.
  unfold getitem. now rewrite L.
Qed.

(** A table with the score column but fewer than two rows cannot be
    split: the train part would be empty, and the divide strategy raises
    the [ValueError] of [train_test_split] after logging it. *)
Theorem split_needs_two_rows df w :
  mem "review_score" (names df) = true ->
  (nrows df < 2)%nat ->
  DataDivideStrategy.handle_data (PFrame df) w
  = (Raise (ValueError "the resulting train set will be empty"),
     logged "Error in dividing data: {}"
            (ValueError "the resulting train set will be empty") w).
Proof.
  intros Hs Hn.
  destruct (getitem_present _ _ Hs) as (col & _ & Hy).
  unfold DataDivideStrategy.handle_data, try_except, divide_try.
  unfold bindM at 1, lift at 1. simpl py_drop.
  rewrite drop_present.
  2:{ unfold Contract.missing. simpl. now rewrite Hs. }
  unfold bindM at 1, lift at 1. simpl py_getitem. rewrite Hy.
  unfold bindM at 1, Sklearn.train_test_split.
  unfold nrows at 1, s_len. cbn [index s_index].
  rewrite Nat.eqb_refl. cbn [negb].
  unfold bindM at 1, lift at 1. unfold nrows at 1. cbn [index].
  fold (nrows df).
  assert (V : Sklearn.validate_shuffle_split_float (Z.of_nat (nrows df))
                test_size
              = Raise (ValueError "the resulting train set will be empty")).
  { destruct (nrows df) as [|[|n]]; [reflexivity | reflexivity | lia]. }
  rewrite V. reflexivity.
Qed.

End SmallTables.

(** One row with a score: the split is refused. *)
Lemma split_needs_two_rows_witness :
  mem "review_score" (names (Samples.scored 1)) = true /\
  (nrows (Samples.scored 1) < 2)%nat /\
  DataDivideStrategy.handle_data (PFrame (Samples.scored 1)) Samples.w0
  = (Raise (ValueError "the resulting train set will be empty"),
     logged "Error in dividing data: {}"
            (ValueError "the resulting train set will be empty") Samples.w0).
Proof.
  assert (H1 : mem "review_score" (names (Samples.scored 1)) = true)
    by reflexivity.
  assert (H2 : (nrows (Samples.scored 1) < 2)%nat) by (vm_compute; lia).
  split; [exact H1|]. split; [exact H2|].
  exact (split_needs_two_rows _ Samples.w0 H1 H2).
Defined.

(* ===================================================================== *)
(** ** Selections: what they keep                                        *)
(* ===================================================================== *)

Section SelectionFacts.
Context {A : Type}.

Lemma take_app (a : list A) i1 i2 x1 x2 :
  take a i1 = Return x1 -> take a i2 = Return x2 ->
  take a (i1 ++ i2)%list = Return (x1 ++ x2)%list.
Proof.
  revert x1; induction i1 as [|i r IH]; simpl; intros x1 H1 H2.
  - injection H1 as <-. exact H2.
  - destruct (nth_error a i) as [x|]; [|discriminate].
    destruct (take a r) as [xs|] eqn:E; simpl in H1; [|discriminate].
    injection H1 as <-. rewrite (IH _ eq_refl H2). reflexivity.
Qed.

Lemma take_all (a : list A) : take a (seq 0 (List.length a)) = Return a.
Proof.
  assert (G : forall pre suf : list A,
             take (pre ++ suf)%list (seq (List.length pre) (List.length suf))
             = Return suf).
  { intros pre suf; revert pre; induction suf as [|x r IH]; intros pre;
      simpl; [reflexivity|].
    rewrite nth_error_app2 by lia. rewrite Nat.sub_diag. simpl.
    specialize (IH (pre ++ [x])%list).
    rewrite <- app_assoc, length_app in IH. simpl in IH.
    rewrite Nat.add_1_r in IH. rewrite IH. reflexivity. }
  exact (G [] a).
Qed.

Lemma take_succeeds (a : list A) indices :
  (forall i, In i indices -> (i < List.length a)%nat) ->
  exists xs, take a indices = Return xs.
Proof.
  induction indices as [|i r IH]; simpl; intros H; [eauto|].
  destruct (nth_error_in_range a (H i (or_introl eq_refl))) as [x ->].
  destruct IH as [xs ->]; [intros j Hj; apply H; now right|].
  simpl. eauto.
Qed.

Lemma take_in_range (a : list A) indices xs :
  take a indices = Return xs ->
  forall i, In i indices -> (i < List.length a)%nat.
Proof.
  intros H i Hi. apply In_nth_error in Hi as [j Hj].
  eapply take_nth_error; eassumption.
Qed.

(** Selecting along a permutation of the positions permutes the list. *)
Lemma take_Permutation (a : list A) i1 i2 x1 x2 :
  Permutation i1 i2 ->
  take a i1 = Return x1 -> take a i2 = Return x2 -> Permutation x1 x2.
Proof.
  intros P; revert x1 x2.
  induction P as [|i l l' P IH|i j l|l l' l'' P1 IH1 P2 IH2];
    intros x1 x2 H1 H2; simpl in *.
  - injection H1 as <-. injection H2 as <-. constructor.
  - destruct (nth_error a i) as [x|]; [|discriminate].
    destruct (take a l) as [xs|]; simpl in H1; [|discriminate].
    destruct (take a l') as [xs'|]; simpl in H2; [|discriminate].
    injection H1 as <-. injection H2 as <-.
    constructor. now apply IH.
  - destruct (nth_error a i) as [x|]; [|discriminate].
    destruct (nth_error a j) as [y|]; [|discriminate].
    destruct (take a l) as [xs|]; simpl in *; [|discriminate].
    injection H1 as <-. injection H2 as <-. apply perm_swap.
  - destruct (take_succeeds a l') as [xs' E].
    { intros i Hi. eapply take_in_range; [exact H1|].
      now apply (Permutation_in _ (Permutation_sym P1)). }
    eapply perm_trans; [exact (IH1 _ _ H1 E) | exact (IH2 _ _ E H2)].
Qed.

Lemma take_In (a : list A) indices xs :
  take a indices = Return xs -> forall x, In x xs -> In x a.
Proof.
  revert xs; induction indices as [|i r IH]; simpl; intros xs H x Hx.
  - injection H as <-. contradiction.
  - destruct (nth_error a i) as [y|] eqn:E; [|discriminate].
    destruct (take a r) as [ys|]; simpl in H; [|discriminate].
    injection H as <-. destruct Hx as [<-|Hx].
    + eapply nth_error_In; eassumption.
    + now apply (IH _ eq_refl).
Qed.

End SelectionFacts.

Section SplitContent.
Context `{RS : Numpy.RandomState} `{FP : Numpy.FloatParser}.

Lemma frame_iloc_columns df indices df' :
  frame_iloc df indices = Return df' ->
  Forall2 (fun nc nc' =>
             fst nc' = fst nc /\
             col_dtype (snd nc') = col_dtype (snd nc) /\
             take (col_values (snd nc)) indices
             = Return (col_values (snd nc')))
          (columns df) (columns df').
Proof.
  unfold frame_iloc. intros H.
  apply bind_Return in H as (idx & _ & H).
  apply bind_Return in H as (cols & Hcols & H). injection H as <-. simpl.
  apply mapM_Forall2 in Hcols.
  induction Hcols as [|nc nc' l l' Hnc _ IH]; constructor; [|exact IH].
  apply bind_Return in Hnc as (col & Hcol & Hnc). injection Hnc as <-.
  apply take_column_Return in Hcol as (D & T). simpl. auto.
Qed.

Lemma frame_iloc_schema df indices df' :
  frame_iloc df indices = Return df' ->
  Contract.schema df' = Contract.schema df.
Proof.
  intros H. apply frame_iloc_columns in H. unfold Contract.schema.
  induction H as [|nc nc' l l' (N & D & _) _ IH]; simpl; [reflexivity|].
  now rewrite IH, N, D.
Qed.

Lemma drop_schema labels df X :
  drop labels df = Return X ->
  Contract.schema X
  = filter (fun p => negb (mem (fst p) labels)) (Contract.schema df).
Proof.
  intros H. apply drop_Return in H as (_ & C & _).
  unfold Contract.schema. rewrite C. clear C.
  induction (columns df) as [|nc r IH]; simpl; [reflexivity|].
  destruct (negb (mem (fst nc) labels)); simpl; now rewrite IH.
Qed.

(** The parts of a returned split keep the columns: both feature tables
    have the columns of the input without [review_score], with their
    dtypes and in their order, and both label series are named
    [review_score] and have the dtype of that column. *)
Theorem split_keeps_schema df w X_train X_test y_train y_test w' :
  DataDivideStrategy.handle_data (PFrame df) w
    = (Return (PSplit X_train X_test y_train y_test), w') ->
  Contract.schema X_train
  = filter (fun p => negb (mem (fst p) ["review_score"]))
           (Contract.schema df) /\
  Contract.schema X_test = Contract.schema X_train /\
  name y_train = "review_score" /\ name y_test = "review_score" /\
  exists score,
    lookup "review_score" (columns df) = Some score /\
    col_dtype (s_data y_train) = col_dtype score /\
    col_dtype (s_data y_test) = col_dtype score.
Proof.
  intros H.
  apply divide_handle_Return in H
    as (X & y & n_test & HX & Hy & -> & Hc & Hn & HP).
  simpl in HP. destruct HP as (a & b & c & d & E & H1 & H2 & H3 & H4).
  injection E as <- <- <- <-.
  apply getitem_Return in Hy as (score & Hs & ->).
  rewrite (frame_iloc_schema _ _ H1), (frame_iloc_schema _ _ H2).
  rewrite (drop_schema _ _ HX).
  unfold series_iloc in H3, H4.
  apply bind_Return in H3 as (i3 & _ & H3).
  apply bind_Return in H3 as (c3 & T3 & H3). injection H3 as <-.
  apply bind_Return in H4 as (i4 & _ & H4).
  apply bind_Return in H4 as (c4 & T4 & H4). injection H4 as <-.
  apply take_column_Return in T3 as (D3 & _).
  apply take_column_Return in T4 as (D4 & _). simpl in *.
  repeat split. exists score. auto.
Qed.

Lemma wf_frame_length df c col :
  wf_frame df = true -> lookup c (columns df) = Some col ->
  List.length (col_values col) = nrows df.
Proof.
  unfold wf_frame. intros W L. apply andb_true_iff in W as [_ W].
  rewrite forallb_forall in W. apply lookup_In in L.
  specialize (W _ L). simpl in W. unfold wf_column in W.
  apply andb_true_iff in W as [W _]. now apply Nat.eqb_eq in W.
Qed.

(** No row is lost and none is taken twice: the row labels of the two
    feature tables together are the row labels of the input, up to
    order, and so are the row labels of the two label series; on a
    well-formed table the scores of the two label series together are
    the scores of the input. *)
Theorem split_loses_no_row df w X_train X_test y_train y_test w' :
  wf_frame df = true ->
  DataDivideStrategy.handle_data (PFrame df) w
    = (Return (PSplit X_train X_test y_train y_test), w') ->
  Permutation (index X_train ++ index X_test)%list (index df) /\
  Permutation (s_index y_train ++ s_index y_test)%list (index df) /\
  exists score,
    lookup "review_score" (columns df) = Some score /\
    Permutation (col_values (s_data y_train)
                 ++ col_values (s_data y_test))%list
                (col_values score).
Proof.
  intros W H.
  apply divide_handle_Return in H
    as (X & y & n_test & HX & Hy & -> & Hc & Hn & HP).
  simpl in HP. destruct HP as (a & b & c & d & E & H1 & H2 & H3 & H4).
  injection E as <- <- <- <-.
  apply getitem_Return in Hy as (score & Hs & ->).
  destruct (cut_partition 42 (nrows df) n_test) as [_ PM]. simpl in PM.
  apply frame_iloc_Return in H1 as (T1 & _).
  apply frame_iloc_Return in H2 as (T2 & _).
  rewrite (drop_index _ _ HX) in T1, T2.
  unfold series_iloc in H3, H4. simpl in H3, H4.
  apply bind_Return in H3 as (i3 & I3 & H3).
  apply bind_Return in H3 as (c3 & T3 & H3). injection H3 as <-.
  apply bind_Return in H4 as (i4 & I4 & H4).
  apply bind_Return in H4 as (c4 & T4 & H4). injection H4 as <-.
  apply take_column_Return in T3 as (_ & V3).
  apply take_column_Return in T4 as (_ & V4). simpl in *.
  assert (via : forall (B : Type) (l x1 x2 : list B),
             List.length l = nrows df ->
             take l (skipn n_test (Sklearn.seeded_permutation 42 (nrows df)))
             = Return x1 ->
             take l (firstn n_test (Sklearn.seeded_permutation 42 (nrows df)))
             = Return x2 ->
             Permutation (x1 ++ x2)%list l).
  { intros B l x1 x2 L A1 A2.
    apply (take_Permutation l PM (take_app _ _ _ A1 A2)).
    rewrite <- L. apply take_all. }
  split; [exact (via _ _ _ _ eq_refl T1 T2)|].
  split; [exact (via _ _ _ _ eq_refl I3 I4)|].
  exists score. split; [exact Hs|].
  exact (via _ _ _ _ (wf_frame_length _ _ W Hs) V3 V4).
Qed.

End SplitContent.

(** Eleven scored rows: the feature tables keep the one column [price]. *)
Lemma split_keeps_schema_witness :
  exists X_train X_test y_train y_test,
    DataDivideStrategy.handle_data (PFrame (Samples.scored 11)) Samples.w0
      = (Return (PSplit X_train X_test y_train y_test), Samples.w0) /\
    Contract.schema X_train = [("price", int64)] /\
    Contract.schema X_test = Contract.schema X_train /\
    name y_train = "review_score" /\ name y_test = "review_score".
Proof.
  destruct Samples.split_of_scored_11 as [| |a b c d] eqn:E;
    try discriminate E.
  exists a, b, c, d.
  assert (H : DataDivideStrategy.handle_data (PFrame (Samples.scored 11))
                Samples.w0 = (Return (PSplit a b c d), Samples.w0))
    by (injection E as <- <- <- <-; vm_compute; reflexivity).
  split; [exact H|].
  destruct (split_keeps_schema _ _ H) as (S1 & S2 & N1 & N2 & _).
  split; [rewrite S1; reflexivity|]. auto.
Defined.

(** Eleven scored rows: the eleven scores come back, eight and three. *)
Lemma split_loses_no_row_witness :
  wf_frame (Samples.scored 11) = true /\
  exists X_train X_test y_train y_test,
    DataDivideStrategy.handle_data (PFrame (Samples.scored 11)) Samples.w0
      = (Return (PSplit X_train X_test y_train y_test), Samples.w0) /\
    Permutation (index X_train ++ index X_test)%list
                (index (Samples.scored 11)) /\
    Permutation (col_values (s_data y_train)
                 ++ col_values (s_data y_test))%list
                (map CInt (map Z.of_nat (seq 1 11))).
Proof.
  assert (W : wf_frame (Samples.scored 11) = true) by reflexivity.
  split; [exact W|].
  destruct Samples.split_of_scored_11 as [| |a b c d] eqn:E;
    try discriminate E.
  exists a, b, c, d.
  assert (H : DataDivideStrategy.handle_data (PFrame (Samples.scored 11))
                Samples.w0 = (Return (PSplit a b c d), Samples.w0))
    by (injection E as <- <- <- <-; vm_compute; reflexivity).
  split; [exact H|].
  destruct (split_loses_no_row _ _ W H) as (P1 & _ & score & Hs & P3).
  split; [exact P1|].
  simpl in Hs. injection Hs as <-. exact P3.
Defined.

Section SplitWellFormed.
Context `{RS : Numpy.RandomState} `{FP : Numpy.FloatParser}.

Lemma names_of_schema df :
  names df = map fst (Contract.schema df).
Proof.
  unfold names, Contract.schema. rewrite map_map. reflexivity.
Qed.

Lemma map_fst_filter_schema (f : string -> bool) (l : list (string * dtype)) :
  map fst (filter (fun p => f (fst p)) l) = filter f (map fst l).
Proof.
  induction l as [|[h d] r IH]; simpl; [reflexivity|].
  destruct (f h); simpl; now rewrite IH.
Qed.

Lemma take_typed d (v : list cell) indices v' :
  forallb (cell_of_dtype d) v = true ->
  take v indices = Return v' ->
  forallb (cell_of_dtype d) v' = true.
Proof.
  intros T H. apply forallb_forall. intros x Hx.
  rewrite forallb_forall in T. apply T. eapply take_In; eassumption.
Qed.

(** A selection of rows of a well-formed frame is well-formed. *)
Lemma frame_iloc_wf df indices df' :
  wf_frame df = true ->
  frame_iloc df indices = Return df' ->
  wf_frame df' = true.
Proof.
  intros W H. pose proof (frame_iloc_schema _ _ H) as S.
  pose proof (frame_iloc_columns _ _ H) as C.
  apply frame_iloc_Return in H as (_ & L & _).
  unfold wf_frame in *. apply andb_true_iff in W as [ND W].
  apply andb_true_iff. split.
  { now rewrite names_of_schema, S, <- names_of_schema. }
  rewrite forallb_forall in W. apply forallb_forall.
  intros nc' Hin.
  assert (G : exists nc, In nc (columns df) /\
                col_dtype (snd nc') = col_dtype (snd nc) /\
                take (col_values (snd nc)) indices
                = Return (col_values (snd nc'))).
  { clear -C Hin. induction C as [|nc nc0 l l' (N & D & T) _ IH].
    - contradiction.
    - destruct Hin as [<-|Hin].
      + exists nc. split; [now left | auto].
      + destruct (IH Hin) as (x & Hx & R). exists x. split; [now right | auto]. }
  destruct G as (nc & Hnc & D & T).
  specialize (W _ Hnc). unfold wf_column in *.
  apply andb_true_iff in W as [_ Ty]. apply andb_true_iff. split.
  - apply Nat.eqb_eq. rewrite L. eapply take_length; eassumption.
  - rewrite D. eapply take_typed; eassumption.
Qed.

(** The parts of a split of a well-formed table are well-formed: the
    feature tables have unique column names and columns as long as their
    index, typed by their dtype; the label series are as long as their
    index and typed by their dtype. *)
Theorem split_keeps_well_formed df w X_train X_test y_train y_test w' :
  wf_frame df = true ->
  DataDivideStrategy.handle_data (PFrame df) w
    = (Return (PSplit X_train X_test y_train y_test), w') ->
  wf_frame X_train = true /\ wf_frame X_test = true /\
  wf_column (s_len y_train) (s_data y_train) = true /\
  wf_column (s_len y_test) (s_data y_test) = true.
Proof.
  intros W H.
  apply divide_handle_Return in H
    as (X & y & n_test & HX & Hy & -> & Hc & Hn & HP).
  simpl in HP. destruct HP as (a & b & c & d & E & H1 & H2 & H3 & H4).
  injection E as <- <- <- <-.
  apply getitem_Return in Hy as (score & Hs & ->).
  assert (WX : wf_frame X = true).
  { pose proof (drop_Return _ _ HX) as (I & C & _).
    unfold wf_frame in *. apply andb_true_iff in W as [ND Wc].
    apply andb_true_iff. split.
    - unfold names. rewrite C.
      rewrite (map_fst_filter_names
                 (fun c => negb (mem c ["review_score"]))).
      now apply nodup_names_filter.
    - rewrite forallb_forall in Wc. apply forallb_forall.
      intros nc Hin. rewrite C in Hin. apply filter_In in Hin as [Hin _].
      unfold nrows. rewrite I. exact (Wc _ Hin). }
  split; [eapply frame_iloc_wf; [exact WX | exact H1]|].
  split; [eapply frame_iloc_wf; [exact WX | exact H2]|].
  destruct (wf_frame_column _ _ W Hs) as [_ T].
  assert (G : forall ind s, series_iloc
                {| name := "review_score"; s_index := index df;
                   s_data := score |} ind = Return s ->
                wf_column (s_len s) (s_data s) = true).
  { intros ind s Hi. pose proof (series_iloc_Return _ _ Hi) as (_ & L & _).
    unfold series_iloc in Hi. simpl in Hi.
    apply bind_Return in Hi as (i3 & _ & Hi).
    apply bind_Return in Hi as (c3 & T3 & Hi). injection Hi as <-.
    apply take_column_Return in T3 as (D3 & V3).
    unfold wf_column. simpl in *. apply andb_true_iff. split.
    - apply Nat.eqb_eq. rewrite L. eapply take_length; eassumption.
    - rewrite D3. eapply take_typed; eassumption. }
  split; [eapply G; exact H3 | eapply G; exact H4].
Qed.

End SplitWellFormed.

(** Eleven scored rows: the parts are well-formed. *)
Lemma split_keeps_well_formed_witness :
  wf_frame (Samples.scored 11) = true /\
  exists X_train X_test y_train y_test,
    DataDivideStrategy.handle_data (PFrame (Samples.scored 11)) Samples.w0
      = (Return (PSplit X_train X_test y_train y_test), Samples.w0) /\
    wf_frame X_train = true /\ wf_frame X_test = true.
Proof.
  assert (W : wf_frame (Samples.scored 11) = true) by reflexivity.
  split; [exact W|].
  destruct Samples.split_of_scored_11 as [| |a b c d] eqn:E;
    try discriminate E.
  exists a, b, c, d.
  assert (H : DataDivideStrategy.handle_data (PFrame (Samples.scored 11))
                Samples.w0 = (Return (PSplit a b c d), Samples.w0))
    by (injection E as <- <- <- <-; vm_compute; reflexivity).
  split; [exact H|].
  destruct (split_keeps_well_formed _ _ W H) as (W1 & W2 & _). auto.
Defined.

Section SplitSucceeds.
Context `{RS : Numpy.RandomState} `{FP : Numpy.FloatParser}.

Lemma fifth_bounds n :
  (2 <= n)%Z -> (0 < (n + 4) / 5 < n)%Z.
Proof.
  intros H. split.
  - apply Z.lt_le_trans with 1%Z; [lia|].
    apply Z.div_le_lower_bound; lia.
  - apply Z.div_lt_upper_bound; lia.
Qed.

Lemma validate_float_small n :
  (2 <= n < 1000)%Z ->
  Sklearn.validate_shuffle_split_float n test_size
  = Return ((n - (n + 4) / 5)%Z, ((n + 4) / 5)%Z).
Proof.
  intros H. unfold Sklearn.validate_shuffle_split_float.
  assert (R : Float64.leb test_size (Float64.of_Z 0)
              || Float64.leb (Float64.of_Z 1) test_size = false)
    by (vm_compute; reflexivity).
  rewrite R, ceil_share_small by lia. simpl Py.bind.
  pose proof (@fifth_bounds n) as B.
  destruct (n <? n - (n + 4) / 5 + (n + 4) / 5)%Z eqn:E1;
    [apply Z.ltb_lt in E1; lia|].
  destruct (n - (n + 4) / 5 =? 0)%Z eqn:E2;
    [apply Z.eqb_eq in E2; lia|].
  reflexivity.
Qed.

Lemma validate_int_ok n t tr :
  (0 < t < n)%Z -> (0 < tr < n)%Z -> (tr + t <= n)%Z ->
  Sklearn.validate_shuffle_split_int n t tr = Return (tr, t).
Proof.
  intros Ht Htr Hs. unfold Sklearn.validate_shuffle_split_int.
  destruct (n <=? t)%Z eqn:E1; [apply Z.leb_le in E1; lia|].
  destruct (t <=? 0)%Z eqn:E2; [apply Z.leb_le in E2; lia|].
  destruct (n <=? tr)%Z eqn:E3; [apply Z.leb_le in E3; lia|].
  destruct (tr <=? 0)%Z eqn:E4; [apply Z.leb_le in E4; lia|].
  destruct (n <? tr + t)%Z eqn:E5; [apply Z.ltb_lt in E5; lia|].
  destruct (tr =? 0)%Z eqn:E6; [apply Z.eqb_eq in E6; lia|].
  reflexivity.
Qed.

Lemma mapM_succeeds {A B} (f : A -> result B) (l : list A) :
  (forall x, In x l -> exists y, f x = Return y) ->
  exists ys, mapM f l = Return ys.
Proof.
  induction l as [|x r IH]; simpl; intros H; [eauto|].
  destruct (H x (or_introl eq_refl)) as [y ->].
  destruct IH as [ys ->]; [intros z Hz; apply H; now right|].
  simpl. eauto.
Qed.

Lemma frame_iloc_succeeds df indices :
  forallb (fun nc => wf_column (nrows df) (snd nc)) (columns df) = true ->
  (forall i, In i indices -> (i < nrows df)%nat) ->
  exists df', frame_iloc df indices = Return df'.
Proof.
  intros W R. unfold frame_iloc.
  destruct (take_succeeds (index df) indices R) as [idx ->]. simpl.
  destruct (mapM_succeeds
              (fun nc => col <- take_column indices (snd nc) ;;
                         Return (fst nc, col)) (columns df))
    as [cols ->]; [|simpl; eauto].
  intros nc Hin. rewrite forallb_forall in W. specialize (W _ Hin).
  unfold wf_column in W. apply andb_true_iff in W as [L _].
  apply Nat.eqb_eq in L. unfold take_column.
  destruct (take_succeeds (col_values (snd nc)) indices) as [v ->];
    [rewrite L; exact R | simpl; eauto].
Qed.

Lemma series_iloc_succeeds s indices :
  List.length (col_values (s_data s)) = s_len s ->
  (forall i, In i indices -> (i < s_len s)%nat) ->
  exists s', series_iloc s indices = Return s'.
Proof.
  intros L R. unfold series_iloc.
  destruct (take_succeeds (s_index s) indices R) as [idx ->]. simpl.
  unfold take_column.
  destruct (take_succeeds (col_values (s_data s)) indices) as [v ->];
    [rewrite L; exact R | simpl; eauto].
Qed.

Lemma seeded_permutation_range s n i :
  In i (Sklearn.seeded_permutation s n) -> (i < n)%nat.
Proof.
  intros H. apply (Permutation_in _ (Numpy.permutation_perm _ _)) in H.
  apply in_seq in H. lia.
Qed.

End SplitSucceeds.

Section SplitSucceedsClaim.
Context `{RS : Numpy.RandomState} `{FP : Numpy.FloatParser}.

(** The [try] block of the divide strategy returns for a well-formed
    table with the score column and two to 999 rows. *)
Lemma divide_try_succeeds df w :
  wf_frame df = true ->
  mem "review_score" (names df) = true ->
  (2 <= nrows df < 1000)%nat ->
  exists X_train X_test y_train y_test,
    divide_try (PFrame df) w
    = (Return (PSplit X_train X_test y_train y_test), w).
Proof.
  intros W Hs Hn.
  destruct (getitem_present _ _ Hs) as (score & Ls & Hy).
  pose proof (wf_frame_length _ _ W Ls) as Lscore.
  unfold wf_frame in W. apply andb_true_iff in W as [_ Wc].
  set (X := {| index := index df;
               columns := filter (fun nc => negb (mem (fst nc) ["review_score"]))
                                 (columns df) |}).
  set (y := {| name := "review_score"; s_index := index df;
               s_data := score |}).
  set (p := Sklearn.seeded_permutation 42 (nrows df)).
  set (t := Z.to_nat ((Z.of_nat (nrows df) + 4) / 5)).
  pose proof (@fifth_bounds (Z.of_nat (nrows df))) as B.
  assert (WX : forallb (fun nc => wf_column (nrows X) (snd nc)) (columns X)
               = true).
  { apply forallb_forall. intros nc Hin. simpl in Hin.
    apply filter_In in Hin as [Hin _].
    rewrite forallb_forall in Wc. exact (Wc _ Hin). }
  assert (Rg : forall k i, In i (skipn k p) \/ In i (firstn k p) ->
                           (i < nrows df)%nat).
  { intros k i Hi. apply (@seeded_permutation_range _ 42). fold p.
    rewrite <- (firstn_skipn k p). apply in_or_app. tauto. }
  destruct (frame_iloc_succeeds X (skipn t p) WX) as [a Ha];
    [intros i Hi; apply (Rg t); now left|].
  destruct (frame_iloc_succeeds X (firstn t p) WX) as [b Hb];
    [intros i Hi; apply (Rg t); now right|].
  destruct (series_iloc_succeeds y (skipn t p) Lscore) as [c Hc];
    [intros i Hi; apply (Rg t); now left|].
  destruct (series_iloc_succeeds y (firstn t p) Lscore) as [d Hd];
    [intros i Hi; apply (Rg t); now right|].
  exists a, b, c, d.
  unfold divide_try.
  unfold bindM at 1, lift at 1. simpl py_drop.
  rewrite drop_present.
  2:{ unfold Contract.missing. simpl. now rewrite Hs. }
  unfold bindM at 1, lift at 1. simpl py_getitem. rewrite Hy.
  fold X y. unfold bindM at 1, Sklearn.train_test_split.
  change (nrows X) with (nrows df). change (s_len y) with (nrows df).
  rewrite Nat.eqb_refl. cbn [negb].
  unfold bindM at 1, lift at 1.
  rewrite validate_float_small by lia. cbn [fst snd].
  unfold bindM at 1, Sklearn.ShuffleSplit_split.
  unfold bindM at 1, lift at 1.
  rewrite validate_int_ok by lia. cbn [fst snd].
  unfold Sklearn.check_random_state, Sklearn.draw_permutation.
  unfold bindM at 1, ret at 1.
  fold (Sklearn.seeded_permutation 42 (nrows df)). fold p. fold t.
  cbn [fst snd].
  assert (Hsk : firstn (Z.to_nat (Z.of_nat (nrows df)
                                  - (Z.of_nat (nrows df) + 4) / 5))
                  (skipn t p) = skipn t p).
  { apply firstn_all2. rewrite length_skipn. unfold p.
    rewrite seeded_permutation_length. unfold t. lia. }
  rewrite Hsk. unfold ret at 1.
  unfold bindM, lift. cbn [fst snd]. rewrite Ha, Hb, Hc, Hd. reflexivity.
Qed.

(** The divide strategy returns a split for every well-formed table
    that has the column [review_score] and at least two rows (shown for
    tables below a thousand rows, where the size of the test part is
    checked by evaluation); the world is left as it was. *)
Theorem split_succeeds df w :
  wf_frame df = true ->
  mem "review_score" (names df) = true ->
  (2 <= nrows df < 1000)%nat ->
  exists X_train X_test y_train y_test,
    DataDivideStrategy.handle_data (PFrame df) w
    = (Return (PSplit X_train X_test y_train y_test), w).
Proof.
  intros W Hs Hn.
  destruct (@divide_try_succeeds df w W Hs Hn) as (a & b & c & d & T).
  exists a, b, c, d.
  unfold DataDivideStrategy.handle_data, try_except.
  rewrite T. reflexivity.
Qed.

End SplitSucceedsClaim.

(** Eleven scored rows are split. *)
Lemma split_succeeds_witness :
  wf_frame (Samples.scored 11) = true /\
  mem "review_score" (names (Samples.scored 11)) = true /\
  (2 <= nrows (Samples.scored 11) < 1000)%nat /\
  exists X_train X_test y_train y_test,
    DataDivideStrategy.handle_data (PFrame (Samples.scored 11)) Samples.w0
    = (Return (PSplit X_train X_test y_train y_test), Samples.w0).
Proof.
  assert (W : wf_frame (Samples.scored 11) = true) by reflexivity.
  assert (S : mem "review_score" (names (Samples.scored 11)) = true)
    by reflexivity.
  assert (N : (2 <= nrows (Samples.scored 11) < 1000)%nat)
    by (vm_compute; lia).
  split; [exact W|]. split; [exact S|]. split; [exact N|].
  exact (@split_succeeds _ _ Samples.w0 W S N).
Defined.

(* ===================================================================== *)
(** ** Further properties of the preprocessing                           *)
(* ===================================================================== *)

Section PreprocessAccepts.
Context `{RS : Numpy.RandomState} `{FP : Numpy.FloatParser}.






End PreprocessAccepts.

Section PreprocessForward.
Context `{RS : Numpy.RandomState} `{FP : Numpy.FloatParser}.




End PreprocessForward.

Section PreprocessBackward.
Context `{RS : Numpy.RandomState} `{FP : Numpy.FloatParser}.



End PreprocessBackward.

Section PreprocessContractClaims.
Context `{RS : Numpy.RandomState} `{FP : Numpy.FloatParser}.

(** The context around the preprocessing strategy never raises, whatever
    it is handed: it returns the cleaned table and leaves the world as
    it was, or it returns [None] after exactly one record, that of the
    preprocessing (no record of the context). *)
Theorem preprocessing_never_raises data w :
  exists v w',
    DataCleaning.handle_data
      {| DataCleaning.data := data; DataCleaning.strategy := PreProcess |} w
    = (Return v, w') /\
    ((exists out, v = PFrame out /\ w' = w) \/
     (exists e, v = PNone /\
                w' = logged "Error in preprocessing data: {}" e w)).
Proof.
  unfold DataCleaning.handle_data, try_except. simpl.
  destruct (preprocess_handle_cases data w)
    as [(out & _ & ->) | (e & _ & ->)].
  - exists (PFrame out), w. split; [reflexivity | left; eauto].
  - eexists PNone, _. split; [reflexivity | right; eauto].
Qed.


(** A table without one of the five timestamp columns is not cleaned:
    the preprocessing returns [None] and logs a [KeyError] that lists
    the timestamp columns the table lacks, in the order of the [drop]
    call, and only those. *)
Theorem preprocess_reports_missing_timestamps df w :
  Contract.missing timestamp_columns df <> [] ->
  DataPreProcessStrategy.handle_data (PFrame df) w
  = (Return PNone,
     logged "Error in preprocessing data: {}"
            (KeyError (Contract.missing timestamp_columns df)) w).
Proof.
  intros H.
  unfold DataPreProcessStrategy.handle_data, try_except, bindM, lift.
  unfold preprocess_try. simpl py_drop. unfold drop.
  fold (Contract.missing timestamp_columns df).
  destruct (Contract.missing timestamp_columns df) as [|m r];
    [contradiction | reflexivity].
Qed.

Lemma missing_all labels df :
  (forall c, In c labels -> ~ In c (names df)) ->
  Contract.missing labels df = labels.
Proof.
  unfold Contract.missing. induction labels as [|l r IH]; simpl;
    intros H; [reflexivity|].
  destruct (mem l (names df)) eqn:M.
  - apply mem_In in M. destruct (H l (or_introl eq_refl) M).
  - simpl. rewrite IH; [reflexivity|]. intros c Hc. apply H. now right.
Qed.

(** Preprocessing is not repeatable: a table it returned has lost the
    timestamp columns, so preprocessing that table again returns [None]
    and logs the [KeyError] for all five. *)
Theorem preprocess_twice_returns_None df w out w' w2 :
  DataPreProcessStrategy.handle_data (PFrame df) w
    = (Return (PFrame out), w') ->
  DataPreProcessStrategy.handle_data (PFrame out) w2
  = (Return PNone,
     logged "Error in preprocessing data: {}"
            (KeyError timestamp_columns) w2).
Proof.
  intros H. apply preprocess_handle_Return in H as [H _].
  apply preprocess_try_Return in H as (d5 & _ & N5 & _ & H & _ & _).
  apply drop_Return in H as (_ & C & _). simpl in C.
  assert (M : Contract.missing timestamp_columns out = timestamp_columns).
  { apply missing_all. intros c Hc Hin.
    unfold names in Hin. rewrite C in Hin.
    apply in_map_iff in Hin as (nc & <- & Hin).
    apply filter_In in Hin as [Hin _]. apply filter_In in Hin as [Hin _].
    apply (in_map fst) in Hin. rewrite N5 in Hin.
    apply filter_In in Hin as [_ Hn].
    apply mem_In in Hc. rewrite Hc in Hn. discriminate. }
  unfold DataPreProcessStrategy.handle_data, try_except, bindM, lift.
  unfold preprocess_try. simpl py_drop. unfold drop.
  fold (Contract.missing timestamp_columns out). rewrite M. reflexivity.
Qed.

End PreprocessContractClaims.


(** Two timestamp columns short: the [KeyError] lists these two. *)
Lemma preprocess_reports_missing_timestamps_witness :
  Contract.missing timestamp_columns Samples.orders_short_of_two <> [] /\
  DataPreProcessStrategy.handle_data (PFrame Samples.orders_short_of_two)
    Samples.w0
  = (Return PNone,
     logged "Error in preprocessing data: {}"
            (KeyError ["order_approved_at"; "order_purchase_timestamp"])
            Samples.w0).
Proof.
  assert (H : Contract.missing timestamp_columns Samples.orders_short_of_two
              <> []) by (vm_compute; discriminate).
  split; [exact H|].
  exact (preprocess_reports_missing_timestamps _ Samples.w0 H).
Defined.

(** The cleaned sample orders are not cleaned a second time. *)
Lemma preprocess_twice_returns_None_witness :
  DataPreProcessStrategy.handle_data (PFrame Samples.orders) Samples.w0
    = (Return Samples.cleaned_orders, Samples.w0) /\
  DataPreProcessStrategy.handle_data Samples.cleaned_orders Samples.w0
  = (Return PNone,
     logged "Error in preprocessing data: {}"
            (KeyError timestamp_columns) Samples.w0).
Proof.
  assert (H : DataPreProcessStrategy.handle_data (PFrame Samples.orders)
                Samples.w0
              = (Return Samples.cleaned_orders, Samples.w0))
    by (vm_compute; reflexivity).
  split; [exact H|].
  destruct Samples.cleaned_orders as [|out|] eqn:E; try discriminate E.
  exact (preprocess_twice_returns_None _ _ Samples.w0 H).
Defined.

Section PreprocessKeeps.
Context `{RS : Numpy.RandomState} `{FP : Numpy.FloatParser}.

Lemma soft_convert_length v :
  List.length (col_values (soft_convert v)) = List.length v.
Proof.
  unfold soft_convert.
  destruct (forallb is_int_cell v); [reflexivity|].
  destruct (forallb is_number_cell v); [apply length_map|].
  now destruct (forallb is_bool_cell v).
Qed.

Lemma fillna_length value col :
  List.length (col_values (fillna value col))
  = List.length (col_values col).
Proof.
  unfold fillna.
  destruct (col_dtype col); try reflexivity;
    destruct (existsb isna (col_values col)); try reflexivity;
    try destruct (can_hold float64 value);
    rewrite ?soft_convert_length; apply length_map.
Qed.

Lemma cleaned_column_length c col :
  List.length (col_values (Spec.cleaned_column c col))
  = List.length (col_values col).
Proof.
  unfold Spec.cleaned_column.
  destruct (String.eqb c "review_comment_message");
    [apply fillna_length|].
  destruct (mem c Spec.product_columns);
    [apply fillna_length | reflexivity].
Qed.

(** A fill writes its value where an entry is missing: the filled
    entries satisfy no property the value does not have. *)
Lemma filled_not_all (P : cell -> bool) value v :
  existsb isna v = true -> P value = false ->
  forallb P (map (fun c => if isna c then value else c) v) = false.
Proof.
  intros E Pv. induction v as [|c r IH]; simpl in *; [discriminate|].
  destruct (isna c); simpl in *; [now rewrite Pv|].
  rewrite (IH E). apply andb_false_r.
Qed.

(** A fill with a float or with text, when it gives a numeric column:
    the column keeps its dtype and its present entries, unless it was an
    object column, which becomes a float column with its integers
    converted. *)
Lemma fillna_keeps_present value col :
  is_int_cell value = false ->
  is_number (col_dtype (fillna value col)) = true ->
  col_dtype (fillna value col)
  = (if Spec.is_object (col_dtype col) then float64 else col_dtype col) /\
  forall i x, nth_error (col_values col) i = Some x -> isna x = false ->
              nth_error (col_values (fillna value col)) i
              = Some (if Spec.is_object (col_dtype col)
                      then as_float_cell x else x).
Proof.
  intros Iv. destruct col as [d v]. unfold fillna.
  cbn [col_dtype col_values].
  assert (K : forall i x,
             nth_error v i = Some x -> isna x = false ->
             nth_error (map (fun c => if isna c then value else c) v) i
             = Some x).
  { intros i x Hx Hn. rewrite nth_error_map, Hx. simpl. now rewrite Hn. }
  destruct d; cbn [Spec.is_object col_dtype col_values];
    try (intros _; split; [reflexivity | intros i x Hx _; exact Hx]).
  - destruct (existsb isna v) eqn:E;
      [|intros _; split; [reflexivity | intros i x Hx _; exact Hx]].
    destruct (can_hold float64 value) eqn:C;
      [intros _; split; [reflexivity | exact K]|].
    rewrite soft_convert_is_number, (filled_not_all is_number_cell _ _ E);
      [discriminate|].
    destruct value; try reflexivity; discriminate.
  - destruct (existsb isna v) eqn:E; [|discriminate].
    unfold soft_convert. rewrite (filled_not_all is_int_cell _ _ E Iv).
    destruct (forallb is_number_cell _);
      [|destruct (forallb is_bool_cell _); discriminate].
    intros _. split; [reflexivity|]. intros i x Hx Hn.
    cbn [col_values]. rewrite nth_error_map, (K i x Hx Hn). reflexivity.
Qed.

Lemma cleaned_column_keeps_present c col :
  is_number (col_dtype (Spec.cleaned_column c col)) = true ->
  col_dtype (Spec.cleaned_column c col)
  = (if Spec.is_object (col_dtype col) then float64 else col_dtype col) /\
  forall i x, nth_error (col_values col) i = Some x -> isna x = false ->
              nth_error (col_values (Spec.cleaned_column c col)) i
              = Some (if Spec.is_object (col_dtype col)
                      then as_float_cell x else x).
Proof.
  unfold Spec.cleaned_column.
  destruct (String.eqb c "review_comment_message");
    [now apply fillna_keeps_present|].
  destruct (mem c Spec.product_columns);
    [now apply fillna_keeps_present|].
  intros N. destruct (col_dtype col); try discriminate N;
    (split; [reflexivity | intros i x Hx _; exact Hx]).
Qed.

Lemma cleaned_column_untouched c col :
  mem c Contract.filled_columns = false ->
  Spec.cleaned_column c col = col.
Proof.
  intros H. unfold Contract.filled_columns, mem in H.
  rewrite existsb_app in H. apply orb_false_iff in H as [Hp Hr].
  cbn [existsb] in Hr. rewrite orb_false_r in Hr.
  unfold Spec.cleaned_column. rewrite Hr.
  change (mem c Spec.product_columns)
    with (existsb (String.eqb c) Spec.product_columns).
  now rewrite Hp.
Qed.

(** The preprocessing moves no row and alters no number that is present:
    every column of a returned table is the input column of that name
    and as long as before. A column of a dtype other than object keeps
    its dtype, and every entry that was not missing is in its place. A
    column of object dtype comes back as a float column, and every entry
    that was not missing is in its place as a float: an integer has been
    converted. A column outside the five filled ones is returned exactly
    as it was. *)
Theorem preprocess_keeps_present_entries df w out w' c col' :
  nodup_names (names df) = true ->
  DataPreProcessStrategy.handle_data (PFrame df) w
    = (Return (PFrame out), w') ->
  lookup c (columns out) = Some col' ->
  exists col,
    lookup c (columns df) = Some col /\
    List.length (col_values col') = List.length (col_values col) /\
    col_dtype col'
    = (if Spec.is_object (col_dtype col) then float64 else col_dtype col) /\
    (forall i x, nth_error (col_values col) i = Some x -> isna x = false ->
                 nth_error (col_values col') i
                 = Some (if Spec.is_object (col_dtype col)
                         then as_float_cell x else x)) /\
    (mem c Contract.filled_columns = false -> col' = col).
Proof.
  intros ND H L. apply preprocess_handle_Return in H as [H _].
  apply (preprocess_lookup _ ND) in H as (_ & _ & Lo).
  rewrite Lo in L. destruct (mem c Spec.dropped_columns); [discriminate|].
  destruct (lookup c (columns df)) as [col|]; [|discriminate].
  destruct (is_number _) eqn:N; [|discriminate]. injection L as <-.
  exists col. split; [reflexivity|].
  destruct (cleaned_column_keeps_present c col N) as [Dt K].
  split; [apply cleaned_column_length|]. split; [exact Dt|].
  split; [exact K|].
  intros U. now apply cleaned_column_untouched.
Qed.

End PreprocessKeeps.

(** The sample orders with the weights as integers in an object column:
    the price column comes back as it was, and the first weight, the
    integer 1, is still the first weight, as the float 1.0 of a float
    column. *)
Lemma preprocess_keeps_present_entries_witness :
  nodup_names (names Samples.orders_object_weight) = true /\
  exists out,
    DataPreProcessStrategy.handle_data (PFrame Samples.orders_object_weight)
      Samples.w0 = (Return (PFrame out), Samples.w0) /\
    lookup "price" (columns out)
    = Some (Samples.floats [Samples.F 10; Samples.F 20;
                            Samples.F 30; Samples.F 40]) /\
    exists weights,
      lookup "product_weight_g" (columns out) = Some weights /\
      col_dtype weights = float64 /\
      nth_error (col_values weights) 0 = Some (Samples.F 1).
Proof.
  assert (N : nodup_names (names Samples.orders_object_weight) = true)
    by reflexivity.
  split; [exact N|].
  destruct Samples.cleaned_orders_object_weight as [|out|] eqn:E;
    try discriminate E.
  exists out.
  assert (H : DataPreProcessStrategy.handle_data
                (PFrame Samples.orders_object_weight) Samples.w0
              = (Return (PFrame out), Samples.w0))
    by (injection E as <-; vm_compute; reflexivity).
  split; [exact H|].
  assert (L1 : exists p, lookup "price" (columns out) = Some p)
    by (injection E as <-; vm_compute; eauto).
  assert (L2 : exists p, lookup "product_weight_g" (columns out) = Some p)
    by (injection E as <-; vm_compute; eauto).
  destruct L1 as [p L1]. destruct L2 as [q L2].
  destruct (@preprocess_keeps_present_entries _ _ _ _ _ _ _ _ N H L1)
    as (col & Lc & _ & _ & _ & U).
  destruct (@preprocess_keeps_present_entries _ _ _ _ _ _ _ _ N H L2)
    as (col2 & Lc2 & _ & Dt & K & _).
  simpl in Lc, Lc2. injection Lc as <-. injection Lc2 as <-.
  split; [rewrite L1; f_equal; apply U; reflexivity|].
  exists q. split; [exact L2|]. split; [exact Dt|].
  exact (K 0%nat (CInt 1) eq_refl eq_refl).
Defined.

Section PreprocessWellFormed.
Context `{RS : Numpy.RandomState} `{FP : Numpy.FloatParser}.

Lemma nodup_names_filter_columns (P : string * Column -> bool) cols :
  nodup_names (map fst cols) = true ->
  nodup_names (map fst (filter P cols)) = true.
Proof.
  induction cols as [|[h col] r IH]; simpl; [reflexivity|].
  intros ND. apply andb_true_iff in ND as [Hh ND].
  destruct (P (h, col)); simpl; [|now apply IH].
  rewrite (IH ND), andb_true_r.
  apply negb_true_iff in Hh. apply negb_true_iff.
  destruct (mem h (map fst (filter P r))) eqn:M; [|reflexivity].
  apply mem_In, in_map_iff in M as (nc & E & Hin).
  apply filter_In in Hin as [Hin _]. apply (in_map fst) in Hin.
  rewrite E in Hin. apply mem_In in Hin. congruence.
Qed.

Lemma In_lookup c col cols :
  nodup_names (map fst cols) = true ->
  In (c, col) cols -> lookup c cols = Some col.
Proof.
  induction cols as [|[h colh] r IH]; simpl; [contradiction|].
  intros ND Hin. apply andb_true_iff in ND as [Hh ND].
  apply negb_true_iff in Hh. destruct Hin as [E|Hin].
  - injection E as -> ->. now rewrite String.eqb_refl.
  - destruct (String.eqb c h) eqn:Ec; [|now apply IH].
    apply String.eqb_eq in Ec. subst h.
    apply (in_map fst) in Hin. apply mem_In in Hin. simpl in Hin.
    congruence.
Qed.

Lemma as_float_typed v :
  forallb is_number_cell v = true ->
  forallb (cell_of_dtype float64) (map as_float_cell v) = true.
Proof.
  induction v as [|c r IH]; simpl; [reflexivity|].
  intros H. apply andb_true_iff in H as [Hc Hr]. rewrite (IH Hr).
  destruct c; try discriminate; reflexivity.
Qed.

(** A fill with a float or with text that gives a numeric column gives
    a typed one. *)
Lemma fillna_typed value col :
  is_int_cell value = false ->
  forallb (cell_of_dtype (col_dtype col)) (col_values col) = true ->
  is_number (col_dtype (fillna value col)) = true ->
  forallb (cell_of_dtype (col_dtype (fillna value col)))
          (col_values (fillna value col)) = true.
Proof.
  intros Iv. destruct col as [d v]. unfold fillna.
  cbn [col_dtype col_values]. intros T.
  destruct d; try exact (fun _ => T).
  - destruct (existsb isna v) eqn:E; [|exact (fun _ => T)].
    destruct (can_hold float64 value) eqn:C.
    + intros _. cbn [col_dtype col_values].
      rewrite forallb_forall in *. intros x Hx.
      apply in_map_iff in Hx as (y & <- & Hy). specialize (T _ Hy).
      destruct (isna y); [|exact T].
      destruct value; try discriminate; reflexivity.
    + rewrite soft_convert_is_number, (filled_not_all is_number_cell _ _ E);
        [discriminate|].
      destruct value; try reflexivity; discriminate.
  - destruct (existsb isna v) eqn:E; [|discriminate].
    unfold soft_convert. rewrite (filled_not_all is_int_cell _ _ E Iv).
    destruct (forallb is_number_cell _) eqn:N;
      [|destruct (forallb is_bool_cell _); discriminate].
    intros _. now apply as_float_typed.
Qed.

(** A fill that leaves the column numeric leaves it typed. *)
Lemma cleaned_column_typed c col :
  forallb (cell_of_dtype (col_dtype col)) (col_values col) = true ->
  is_number (col_dtype (Spec.cleaned_column c col)) = true ->
  forallb (cell_of_dtype (col_dtype (Spec.cleaned_column c col)))
          (col_values (Spec.cleaned_column c col)) = true.
Proof.
  intros T. unfold Spec.cleaned_column.
  destruct (String.eqb c "review_comment_message");
    [now apply fillna_typed|].
  destruct (mem c Spec.product_columns);
    [now apply fillna_typed | exact (fun _ => T)].
Qed.

(** The table the [try] block of the preprocessing returns for a
    well-formed table is well-formed. *)
Lemma preprocess_try_wf df out :
  wf_frame df = true ->
  preprocess_try (PFrame df) = Return out ->
  wf_frame out = true.
Proof.
  intros W H.
  assert (ND : nodup_names (names df) = true).
  { unfold wf_frame in W. now apply andb_true_iff in W as [? _]. }
  pose proof (preprocess_lookup _ ND H) as (I & _ & Lo).
  apply preprocess_try_Return in H as (d5 & _ & N5 & _ & H & _ & _).
  apply drop_Return in H as (_ & C & _). simpl in C.
  assert (NDo : nodup_names (names out) = true).
  { unfold names. rewrite C.
    apply nodup_names_filter_columns, nodup_names_filter_columns.
    rewrite N5. now apply nodup_names_filter. }
  unfold wf_frame. rewrite NDo. simpl.
  apply forallb_forall. intros [c col'] Hin. simpl.
  apply (In_lookup _ _ _ NDo) in Hin. rewrite Lo in Hin.
  destruct (mem c Spec.dropped_columns); [discriminate|].
  destruct (lookup c (columns df)) as [col|] eqn:Lc; [|discriminate].
  destruct (is_number _) eqn:Nm; [|discriminate]. injection Hin as <-.
  destruct (wf_frame_column _ _ W Lc) as [_ T].
  pose proof (wf_frame_length _ _ W Lc) as Len.
  unfold wf_column. apply andb_true_iff. split.
  - apply Nat.eqb_eq.
    rewrite (cleaned_column_length c col).
    unfold nrows. now rewrite I.
  - now apply cleaned_column_typed.
Qed.

(** The preprocessing keeps the table invariant: the table it returns
    for a well-formed table is well-formed (unique column names, every
    column as long as the index and typed by its dtype). *)
Theorem preprocess_keeps_well_formed df w out w' :
  wf_frame df = true ->
  DataPreProcessStrategy.handle_data (PFrame df) w
    = (Return (PFrame out), w') ->
  wf_frame out = true.
Proof.
  intros W H. apply preprocess_handle_Return in H as [H _].
  exact (@preprocess_try_wf df out W H).
Qed.

End PreprocessWellFormed.

(** The sample orders are well-formed, and so is what they are cleaned
    to. *)
Lemma preprocess_keeps_well_formed_witness :
  wf_frame Samples.orders = true /\
  exists out,
    DataPreProcessStrategy.handle_data (PFrame Samples.orders) Samples.w0
      = (Return (PFrame out), Samples.w0) /\
    wf_frame out = true.
Proof.
  assert (W : wf_frame Samples.orders = true) by reflexivity.
  split; [exact W|].
  destruct Samples.cleaned_orders as [|out|] eqn:E; try discriminate E.
  exists out.
  assert (H : DataPreProcessStrategy.handle_data (PFrame Samples.orders)
                Samples.w0 = (Return (PFrame out), Samples.w0))
    by (injection E as <-; vm_compute; reflexivity).
  split; [exact H|].
  exact (@preprocess_keeps_well_formed _ _ _ _ _ _ W H).
Defined.

(* ===================================================================== *)
(** ** Further properties of the step                                    *)
(* ===================================================================== *)

Section CleanDfFacts.
Context `{RS : Numpy.RandomState} `{FP : Numpy.FloatParser}.

(** The step, in terms of what the two strategies do: the context
    passes a returned value on and adds a record to a raised one. *)
Lemma clean_df_run df w :
  clean_df df w
  = match DataPreProcessStrategy.handle_data (PFrame df) w with
    | (Return processed, w1) =>
        match DataDivideStrategy.handle_data processed w1 with
        | (Return parts, w2) =>
            match unpack4 parts with
            | Return _ =>
                (Return PNone,
                 {| log := log w2 ++ [LogInfo "Data cleaning completed"];
                    np_random := np_random w2 |})
            | Raise e => (Raise e, logged "Error in cleaning data: {}" e w2)
            end
        | (Raise e, w2) =>
            (Raise e,
             logged "Error in cleaning data: {}" e
               (logged "Error in handling data: {}" e w2))
        end
    | (Raise e, w1) =>
        (Raise e,
         logged "Error in cleaning data: {}" e
           (logged "Error in handling data: {}" e w1))
    end.
Proof.
  unfold clean_df, DataCleaning.handle_data, try_except, bindM. simpl.
  destruct (DataPreProcessStrategy.handle_data (PFrame df) w)
    as [[processed|e] w1]; [|reflexivity].
  destruct (DataDivideStrategy.handle_data processed w1)
    as [[parts|e] w2]; [|reflexivity].
  unfold lift. destruct (unpack4 parts); reflexivity.
Qed.

Lemma divide_handle_not_frame data w :
  (forall df, data <> PFrame df) ->
  DataDivideStrategy.handle_data data w
  = (Raise (AttributeError (type_name data) "drop"),
     logged "Error in dividing data: {}"
            (AttributeError (type_name data) "drop") w).
Proof.
  intros H. destruct data as [|df|a b c d]; try reflexivity.
  now destruct (H df).
Qed.



End CleanDfFacts.

Section CleanDfClaims.
Context `{RS : Numpy.RandomState} `{FP : Numpy.FloatParser}.

(** An error in the preprocessing is masked. When a step of the
    preprocessing raises [e], [clean_df] does not raise [e]: the
    preprocessing returns [None], the divide strategy is handed [None],
    and [clean_df] raises the [AttributeError] for [drop]. The log
    receives four records, in this order: [e] from the preprocessing,
    then the [AttributeError] from the divide strategy, from the context
    and from the step. *)
Theorem clean_df_masks_preprocessing_error df w e :
  preprocess_try (PFrame df) = Raise e ->
  let ae := AttributeError "NoneType" "drop" in
  clean_df df w
  = (Raise ae,
     Contract.logged_all
       [ ("Error in preprocessing data: {}", e);
         ("Error in dividing data: {}", ae);
         ("Error in handling data: {}", ae);
         ("Error in cleaning data: {}", ae) ] w).
Proof.
  intros H ae. rewrite clean_df_run.
  destruct (preprocess_handle_cases (PFrame df) w)
    as [(out & T & _) | (e' & T & ->)]; [congruence|].
  rewrite H in T. injection T as <-.
  rewrite divide_handle_not_frame by (intros d; discriminate).
  reflexivity.
Qed.



End CleanDfClaims.

(** With the zip code column under its correct name the preprocessing
    fails on the misspelled one, and the step raises the
    [AttributeError] instead. *)
Lemma clean_df_masks_preprocessing_error_witness :
  let e := KeyError ["custopmer_zip_code_prefix"] in
  let ae := AttributeError "NoneType" "drop" in
  preprocess_try (PFrame Samples.orders_zip_spelled) = Raise e /\
  clean_df Samples.orders_zip_spelled Samples.w0
  = (Raise ae,
     Contract.logged_all
       [ ("Error in preprocessing data: {}", e);
         ("Error in dividing data: {}", ae);
         ("Error in handling data: {}", ae);
         ("Error in cleaning data: {}", ae) ] Samples.w0).
Proof.
  intros e ae.
  assert (H : preprocess_try (PFrame Samples.orders_zip_spelled) = Raise e)
    by (vm_compute; reflexivity).
  split; [exact H|].
  exact (@clean_df_masks_preprocessing_error _ _ _ Samples.w0 e H).
Defined.


